(** * felpsbot_redis: the JSON command layer and its pipelines

    A shallow embedding of [felpsbot_redis/async_json/commands.py],
    [felpsbot_redis/async_json/__init__.py], [felpsbot_redis/pipeline.py]
    and [felpsbot_redis/__init__.py].

    Every command method of [AsyncJSONCommands] builds a heterogeneous
    Python list [pieces] and hands it to [execute_command]; [set] may
    instead open a pipeline.  The embedding keeps that shape: a method is a
    computation in a small monad that threads the record of what reached
    the store and that can raise a Python exception.  Log calls
    ([logger.debug], [logger.info]) have no effect on tokens or results and
    are left out.  The file-system helpers [set_file] and [set_path] read
    files through the operating system, which is a parameter here. *)

From Stdlib Require Import ZArith String Ascii List Bool Lia DecimalString.
Import ListNotations.

Set Warnings "-register-all".

Local Open Scope string_scope.
Local Open Scope list_scope.

(** ** Python values *)

(** The values of [JsonType] ([str], [int], [bool], [None], lists and
    dicts with text keys).  [PyNone] is Python's [None], which is also what
    a JSON [null] is in Python.  Floats are not represented. *)
Inductive PyVal : Type :=
| PyNone : PyVal
| PyBool (b : bool) : PyVal
| PyInt (z : Z) : PyVal
| PyStr (s : string) : PyVal
| PyList (l : list PyVal) : PyVal
| PyDict (d : list (string * PyVal)) : PyVal.

(** An element of a [pieces] list: the methods put [str] and [int] objects
    into it. *)
Inductive Token : Type :=
| TStr (s : string) : Token
| TInt (z : Z) : Token.

(** The exceptions that occur: the bare [Exception] of [set], redis-py's
    [DataError] (built from its positional arguments), [TypeError], and
    any other class (a store or connection error, say). *)
Inductive PyExc : Type :=
| Exception_ (msg : string) : PyExc
| DataError (args : list string) : PyExc
| TypeError (msg : string) : PyExc
| OtherError (cls msg : string) : PyExc.

Inductive Result (A : Type) : Type :=
| Ok (a : A) : Result A
| Raise (e : PyExc) : Result A.

Arguments Ok {A} a.
Arguments Raise {A} e.

Definition is_Ok {A : Type} (r : Result A) : bool :=
  match r with Ok _ => true | Raise _ => false end.

(** [str(x)] for an [Optional[str]] argument. *)
Definition str (x : option string) : string :=
  match x with
  | Some s => s
  | None => "None"
  end.

(** An argument with a default value in the signature: left out by the
    caller, or passed. *)
Inductive Passed (A : Type) : Type :=
| Omitted : Passed A
| Given (a : A) : Passed A.

Arguments Omitted {A}.
Arguments Given {A} a.

Definition or_default {A : Type} (d : A) (p : Passed A) : A :=
  match p with
  | Omitted => d
  | Given a => a
  end.

(** ** The store boundary *)

(** What reached the store: a single command, or a whole batch with its
    transaction flag and shard hint. *)
Inductive Event : Type :=
| SentCommand (tokens : list Token) : Event
| SentBatch (transaction : bool) (shard_hint : option string)
    (commands : list (list Token)) : Event.

Definition Trace : Type := list Event.

(** The client runtime below this layer.  A reply is what the runtime
    hands back after its response callback ran: a value or a raised
    exception.  It may depend on everything sent before.  [_encode] and
    [decode_dict_keys] come from the runtime as well and may raise. *)
Record Client : Type := mkClient {
  send_command : Trace -> list Token -> Result PyVal;
  send_batch : Trace -> bool -> option string -> list (list Token) -> bool ->
               Result (list PyVal);
  _encode : PyVal -> Result string;
  decode_dict_keys : PyVal -> Result PyVal
}.

(** ** Computations *)

Definition M (A : Type) : Type := Trace -> Result A * Trace.

Definition ret {A : Type} (a : A) : M A := fun tr => (Ok a, tr).

Definition raise {A : Type} (e : PyExc) : M A := fun tr => (Raise e, tr).

Definition bind {A B : Type} (m : M A) (k : A -> M B) : M B :=
  fun tr =>
    match m tr with
    | (Ok a, tr') => k a tr'
    | (Raise e, tr') => (Raise e, tr')
    end.

Definition lift {A : Type} (r : Result A) : M A := fun tr => (r, tr).

(** [try: m  except TypeError: h] *)
Definition try_except_TypeError {A : Type} (m : M A) (h : M A) : M A :=
  fun tr =>
    match m tr with
    | (Raise (TypeError _), tr') => h tr'
    | other => other
    end.

Declare Scope py_scope.
Delimit Scope py_scope with py.
Notation "x <- m ;; k" := (bind m (fun x => k))
  (at level 61, m at next level, right associativity) : py_scope.
Local Open Scope py_scope.

(** ** Files, text and dicts *)

(** What [set_file] and [set_path] ask of the operating system and of the
    [json] module: [os.walk] (the [(root, dirs, files)] entries, in the
    order they are yielded), [os.path.join], [open(f, "r")] followed by
    [fp.read()], and [json.loads]. *)
Record FileSystem : Type := mkFileSystem {
  walk : string -> list (string * list string * list string);
  join : string -> string -> string;
  read : string -> Result string;
  loads : string -> Result PyVal
}.

(** [json.JSONDecodeError], one of the other exception classes. *)
Definition JSONDecodeError (msg : string) : PyExc :=
  OtherError "JSONDecodeError" msg.

Definition is_JSONDecodeError (e : PyExc) : bool :=
  match e with
  | OtherError cls _ => String.eqb cls "JSONDecodeError"
  | _ => false
  end.

(** [try: m  except json.JSONDecodeError: h] *)
Definition try_except_JSONDecodeError {A : Type} (m : M A) (h : M A) : M A :=
  fun tr =>
    match m tr with
    | (Raise e, tr') => if is_JSONDecodeError e then h tr' else (Raise e, tr')
    | other => other
    end.

(** [s.rsplit(".")]: with no limit on the number of splits, the pieces
    between the dots, from left to right. *)
Fixpoint rsplit_dot (s : string) : list string :=
  match s with
  | EmptyString => [""]
  | String ch rest =>
      if Ascii.eqb ch "." then "" :: rsplit_dot rest
      else match rsplit_dot rest with
           | piece :: pieces => String ch piece :: pieces
           | [] => [String ch ""]
           end
  end.

(** [l[0]] *)
Definition item0 (l : list string) : Result string :=
  match l with
  | x :: _ => Ok x
  | [] => Raise (OtherError "IndexError" "list index out of range")
  end.

(** [d[k] = v] on a dict kept in insertion order: a key already there
    keeps its place and takes the new value. *)
Fixpoint dict_set {V : Type} (d : list (string * V)) (k : string) (v : V)
  : list (string * V) :=
  match d with
  | [] => [(k, v)]
  | (k', v') :: rest =>
      if String.eqb k' k then (k, v) :: rest
      else (k', v') :: dict_set rest k v
  end.

Fixpoint dict_get {V : Type} (d : list (string * V)) (k : string) : option V :=
  match d with
  | [] => None
  | (k', v') :: rest => if String.eqb k' k then Some v' else dict_get rest k
  end.

(** ** [redis.commands.json.path.Path] *)

Module Path.
(** Modelled from the spec: the root-path token of [Path.root_path()],
    whose class is not among the sources; the spec gives it as ".". *)
Definition root_path : string := ".".
End Path.

(** ** [felpsbot_redis/pipeline.py] *)

Module Pipeline.

Record t : Type := mk {
  transaction : bool;
  shard_hint : option string;
  command_stack : list (list Token)
}.

Definition __init__ (transaction : bool) (shard_hint : option string) : t :=
  {| transaction := transaction;
     shard_hint := shard_hint;
     command_stack := [] |}.

(** [command_name = args[0]] fails on a call with no argument; otherwise
    the command is queued and nothing is sent. *)
Definition execute_command (self : t) (args : list Token) : Result t :=
  match args with
  | [] => Raise (OtherError "IndexError" "tuple index out of range")
  | command_name :: _ =>
      Ok {| transaction := transaction self;
            shard_hint := shard_hint self;
            command_stack := command_stack self ++ [args] |}
  end.

(** [expire] is the core command inherited by every pipeline: it queues
    [EXPIRE name time]. *)
Definition expire (self : t) (name : string) (time : Z) : Result t :=
  execute_command self [TStr "EXPIRE"; TStr name; TInt time].

(** With nothing queued the result is the empty list and nothing is
    sent; otherwise there is one round trip for the whole queue, and the
    reply is a list. *)
Definition execute (c : Client) (self : t) (raise_on_error : Passed bool)
  : M PyVal :=
  fun tr =>
    let raise_on_error := or_default true raise_on_error in
    match command_stack self with
    | [] => (Ok (PyList []), tr)
    | _ :: _ =>
        let sent :=
          tr ++ [SentBatch (transaction self) (shard_hint self)
                           (command_stack self)] in
        match send_batch c tr (transaction self) (shard_hint self)
                         (command_stack self) raise_on_error with
        | Ok replies => (Ok (PyList replies), sent)
        | Raise e => (Raise e, sent)
        end
    end.

End Pipeline.

(** ** [felpsbot_redis/__init__.py] *)

Module Redis.

(** [Redis.execute_command]: [command_name = args[0]] fails on a call
    with no argument; otherwise one command, one round trip. *)
Definition execute_command (c : Client) (args : list Token) : M PyVal :=
  fun tr =>
    match args with
    | [] => (Raise (OtherError "IndexError" "tuple index out of range"), tr)
    | command_name :: _ => (send_command c tr args, tr ++ [SentCommand args])
    end.

Definition pipeline (transaction : Passed bool) (shard_hint : Passed (option string))
  : Pipeline.t :=
  Pipeline.__init__ (or_default true transaction) (or_default None shard_hint).

End Redis.

(** ** [felpsbot_redis/async_json/__init__.py] *)

Module AsyncJSON.

(** [AsyncJSON.pipeline], for a client that is not a cluster. *)
Definition pipeline (transaction : Passed bool) (shard_hint : Passed (option string))
  : Pipeline.t :=
  Pipeline.__init__ (or_default true transaction) (or_default None shard_hint).

End AsyncJSON.

(** ** [felpsbot_redis/__init__.py]: the properties [json] and [ft] *)

Module Modules.

(** An object, known by its rank among the objects constructed. *)
Definition Obj : Type := nat.

(** The two attributes of a [Redis] object that the properties set
    ([None] while [hasattr] is false), and the number of module objects
    constructed so far. *)
Record t : Type := mk {
  __json_module__ : option Obj;
  __ft_module__ : option Obj;
  constructed : nat
}.

(** A [Redis] object on which no property has been read. *)
Definition fresh : t :=
  {| __json_module__ := None; __ft_module__ := None; constructed := 0 |}.

(** [super().json()] and [super().ft()] construct a new object at every
    call. *)
Definition construct (self : t) : Obj * t :=
  (constructed self,
   {| __json_module__ := __json_module__ self;
      __ft_module__ := __ft_module__ self;
      constructed := S (constructed self) |}).

Definition json (self : t) : Obj * t :=
  match __json_module__ self with
  | Some module => (module, self)
  | None =>
      let (module, self) := construct self in
      (module,
       {| __json_module__ := Some module;
          __ft_module__ := __ft_module__ self;
          constructed := constructed self |})
  end.

Definition ft (self : t) : Obj * t :=
  match __ft_module__ self with
  | Some module => (module, self)
  | None =>
      let (module, self) := construct self in
      (module,
       {| __json_module__ := __json_module__ self;
          __ft_module__ := Some module;
          constructed := constructed self |})
  end.

(** A read of one of the two properties. *)
Inductive Read : Type :=
| ReadJson : Read
| ReadFt : Read.

(** A sequence of reads, with the object each one returned. *)
Fixpoint reads (rs : list Read) (self : t) : list (Read * Obj) * t :=
  match rs with
  | [] => ([], self)
  | r :: rest =>
      let (module, self) :=
        match r with
        | ReadJson => json self
        | ReadFt => ft self
        end in
      let (returned, self) := reads rest self in
      ((r, module) :: returned, self)
  end.

(** The state the properties keep: the counter counts the attributes that
    are set, which hold objects constructed earlier and different from
    each other. *)
Definition well_formed (self : t) : Prop :=
  constructed self
  = (match __json_module__ self with Some _ => 1 | None => 0 end)
    + (match __ft_module__ self with Some _ => 1 | None => 0 end)
  /\ (forall j, __json_module__ self = Some j -> j < constructed self)
  /\ (forall f, __ft_module__ self = Some f -> f < constructed self)
  /\ (forall j f, __json_module__ self = Some j -> __ft_module__ self = Some f ->
                  j <> f).

End Modules.

(** ** [felpsbot_redis/async_json/commands.py] *)

Module AsyncJSONCommands.

Section Commands.

Variable c : Client.

(** [self.execute_command(verb, *pieces)] on an [AsyncJSON] object. *)
Definition execute_command (verb : string) (pieces : list Token) : M PyVal :=
  Redis.execute_command c (TStr verb :: pieces).

(** [for o in args: pieces.append(self._encode(o))] *)
Fixpoint append_encoded (pieces : list Token) (args : list PyVal)
  : Result (list Token) :=
  match args with
  | [] => Ok pieces
  | o :: rest =>
      match _encode c o with
      | Ok s => append_encoded (pieces ++ [TStr s]) rest
      | Raise e => Raise e
      end
  end.

Definition arrappend (name : string) (path : Passed (option string))
  (args : list PyVal) : M PyVal :=
  let path := or_default (Some Path.root_path) path in
  pieces <- lift (append_encoded [TStr name; TStr (str path)] args) ;;
  execute_command "JSON.ARRAPPEND" pieces.

Definition arrindex (name : string) (path : string) (scalar : PyVal)
  (start stop : option Z) : M PyVal :=
  enc <- lift (_encode c scalar) ;;
  let pieces := [TStr name; TStr path; TStr enc] in
  let pieces :=
    match start with
    | Some start =>
        let pieces := pieces ++ [TInt start] in
        match stop with
        | Some stop => pieces ++ [TInt stop]
        | None => pieces
        end
    | None => pieces
    end in
  execute_command "JSON.ARRINDEX" pieces.

Definition arrinsert (name : string) (path : string) (index : Z)
  (args : list PyVal) : M PyVal :=
  pieces <- lift (append_encoded [TStr name; TStr path; TInt index] args) ;;
  execute_command "JSON.ARRINSERT" pieces.

Definition arrlen (name : string) (path : Passed (option string)) : M PyVal :=
  let path := or_default (Some Path.root_path) path in
  execute_command "JSON.ARRLEN" [TStr name; TStr (str path)].

Definition arrpop (name : string) (path : Passed (option string))
  (index : Passed Z) : M PyVal :=
  let path := or_default (Some Path.root_path) path in
  let index := or_default (-1)%Z index in
  execute_command "JSON.ARRPOP" [TStr name; TStr (str path); TInt index].

Definition arrtrim (name : string) (path : string) (start stop : Z) : M PyVal :=
  execute_command "JSON.ARRTRIM" [TStr name; TStr path; TInt start; TInt stop].

Definition type (name : string) (path : Passed (option string)) : M PyVal :=
  let path := or_default (Some Path.root_path) path in
  execute_command "JSON.TYPE" [TStr name; TStr (str path)].

Definition resp (name : string) (path : Passed (option string)) : M PyVal :=
  let path := or_default (Some Path.root_path) path in
  execute_command "JSON.RESP" [TStr name; TStr (str path)].

Definition objkeys (name : string) (path : Passed (option string)) : M PyVal :=
  let path := or_default (Some Path.root_path) path in
  execute_command "JSON.OBJKEYS" [TStr name; TStr (str path)].

Definition objlen (name : string) (path : Passed (option string)) : M PyVal :=
  let path := or_default (Some Path.root_path) path in
  execute_command "JSON.OBJLEN" [TStr name; TStr (str path)].

Definition numincrby (name : string) (path : string) (number : PyVal) : M PyVal :=
  enc <- lift (_encode c number) ;;
  execute_command "JSON.NUMINCRBY" [TStr name; TStr path; TStr enc].

Definition clear (name : string) (path : Passed (option string)) : M PyVal :=
  let path := or_default (Some Path.root_path) path in
  execute_command "JSON.CLEAR" [TStr name; TStr (str path)].

Definition delete (key : string) (path : Passed (option string)) : M PyVal :=
  let path := or_default (Some Path.root_path) path in
  execute_command "JSON.DEL" [TStr key; TStr (str path)].

Definition forget := delete.

(** [for p in args: pieces.append(str(p))] *)
Fixpoint append_paths (pieces : list Token) (args : list (option string))
  : list Token :=
  match args with
  | [] => pieces
  | p :: rest => append_paths (pieces ++ [TStr (str p)]) rest
  end.

Definition get (name : string) (args : list (option string))
  (no_escape : bool) : M PyVal :=
  let pieces := [TStr name] in
  let pieces := if no_escape then pieces ++ [TStr "noescape"] else pieces in
  let pieces :=
    if (length args =? 0)%nat then pieces ++ [TStr Path.root_path]
    else append_paths pieces args in
  try_except_TypeError (execute_command "JSON.GET" pieces) (ret PyNone).

Definition mget (keys : list string) (path : string) : M PyVal :=
  let pieces := [] in
  let pieces := pieces ++ map TStr keys in
  let pieces := pieces ++ [TStr path] in
  execute_command "JSON.MGET" pieces.

(** The message of the bare [Exception] that [set] raises. *)
Definition nx_xx_message : string :=
  "nx and xx are mutually exclusive: use one, the other or neither - but not both".

Definition set (name : string) (path : string) (obj : PyVal) (nx xx : bool)
  (ttl : option Z) (decode_keys : bool) : M PyVal :=
  obj <- lift (if decode_keys then decode_dict_keys c obj else Ok obj) ;;
  enc <- lift (_encode c obj) ;;
  let pieces := [TStr name; TStr path; TStr enc] in
  pieces <- (if nx && xx then raise (Exception_ nx_xx_message)
             else if nx then ret (pieces ++ [TStr "NX"])
             else if xx then ret (pieces ++ [TStr "XX"])
             else ret pieces) ;;
  match ttl with
  | Some ttl =>
      if (ttl >? 0)%Z then
        let pipe := AsyncJSON.pipeline Omitted Omitted in
        pipe <- lift (Pipeline.execute_command pipe (TStr "JSON.SET" :: pieces)) ;;
        pipe <- lift (Pipeline.expire pipe name ttl) ;;
        Pipeline.execute c pipe Omitted
      else execute_command "JSON.SET" pieces
  | None => execute_command "JSON.SET" pieces
  end.

(** [for triplet in triplets: pieces.extend([triplet[0], str(triplet[1]),
    self._encode(triplet[2])])] *)
Fixpoint extend_triplets (pieces : list Token)
  (triplets : list (string * string * PyVal)) : Result (list Token) :=
  match triplets with
  | [] => Ok pieces
  | (key, path, value) :: rest =>
      match _encode c value with
      | Ok s => extend_triplets (pieces ++ [TStr key; TStr path; TStr s]) rest
      | Raise e => Raise e
      end
  end.

Definition mset (triplets : list (string * string * PyVal)) : M PyVal :=
  pieces <- lift (extend_triplets [] triplets) ;;
  execute_command "JSON.MSET" pieces.

Definition merge (name : string) (path : string) (obj : PyVal)
  (decode_keys : bool) : M PyVal :=
  obj <- lift (if decode_keys then decode_dict_keys c obj else Ok obj) ;;
  enc <- lift (_encode c obj) ;;
  execute_command "JSON.MERGE" [TStr name; TStr path; TStr enc].

Definition strlen (name : string) (path : Passed (option string)) : M PyVal :=
  let path := or_default None path in
  let pieces := [TStr name] in
  let pieces :=
    match path with
    | Some _ => pieces ++ [TStr (str path)]
    | None => pieces
    end in
  execute_command "JSON.STRLEN" pieces.

Definition toggle (name : string) (path : Passed (option string)) : M PyVal :=
  let path := or_default (Some Path.root_path) path in
  execute_command "JSON.TOGGLE" [TStr name; TStr (str path)].

Definition strappend (name : string) (value : PyVal)
  (path : Passed (option string)) : M PyVal :=
  let path := or_default (Some Path.root_path) path in
  enc <- lift (_encode c value) ;;
  execute_command "JSON.STRAPPEND" [TStr name; TStr (str path); TStr enc].

Definition valid_subcommands : list string := ["MEMORY"; "HELP"].

(** [x in l] for a list of [str]. *)
Definition str_in (x : string) (l : list string) : bool :=
  existsb (String.eqb x) l.

(** [repr] of a [str] that holds no quote, backslash or control
    character, as the members of [valid_subcommands] do. *)
Definition repr_str (s : string) : string := "'" ++ s ++ "'".

(** [str] of a list of such [str] objects. *)
Definition str_list (l : list string) : string :=
  "[" ++ String.concat ", " (map repr_str l) ++ "]".

Definition debug (subcommand : string) (key : Passed (option string))
  (path : Passed (option string)) : M PyVal :=
  let key := or_default None key in
  let path := or_default (Some Path.root_path) path in
  if negb (str_in subcommand valid_subcommands) then
    raise (DataError ["The only valid subcommands are "; str_list valid_subcommands])
  else
    let pieces := [TStr subcommand] in
    if String.eqb subcommand "MEMORY" then
      match key with
      | None => raise (DataError ["No key specified"])
      | Some key =>
          let pieces := pieces ++ [TStr key] in
          let pieces := pieces ++ [TStr (str path)] in
          execute_command "JSON.DEBUG" pieces
      end
    else execute_command "JSON.DEBUG" pieces.

(** [set_file]: the content of the file, parsed, is [set] with no [ttl]. *)
Definition set_file (fs : FileSystem) (name : string) (path : string)
  (file_name : string) (nx xx : bool) (decode_keys : bool) : M PyVal :=
  text <- lift (read fs file_name) ;;
  file_content <- lift (loads fs text) ;;
  set name path file_content nx xx None decode_keys.

(** [for file in files: ...], the inner loop of [set_path]. *)
Fixpoint set_path_files (fs : FileSystem) (json_path : string) (root : string)
  (files : list string) (nx xx : bool) (decode_keys : bool)
  (set_files_result : list (string * bool)) : M (list (string * bool)) :=
  match files with
  | [] => ret set_files_result
  | file :: rest =>
      let file_path := join fs root file in
      set_files_result <-
        try_except_JSONDecodeError
          (file_name <- lift (item0 (rsplit_dot file_path)) ;;
           done <- set_file fs file_name json_path file_path nx xx decode_keys ;;
           ret (dict_set set_files_result file_path true))
          (ret (dict_set set_files_result file_path false)) ;;
      set_path_files fs json_path root rest nx xx decode_keys set_files_result
  end.

(** [for root, dirs, files in os.walk(root_folder): ...] *)
Fixpoint set_path_walk (fs : FileSystem) (json_path : string)
  (entries : list (string * list string * list string)) (nx xx : bool)
  (decode_keys : bool) (set_files_result : list (string * bool))
  : M (list (string * bool)) :=
  match entries with
  | [] => ret set_files_result
  | (root, dirs, files) :: rest =>
      set_files_result <-
        set_path_files fs json_path root files nx xx decode_keys set_files_result ;;
      set_path_walk fs json_path rest nx xx decode_keys set_files_result
  end.

Definition set_path (fs : FileSystem) (json_path : string) (root_folder : string)
  (nx xx : bool) (decode_keys : bool) : M (list (string * bool)) :=
  set_path_walk fs json_path (walk fs root_folder) nx xx decode_keys [].

End Commands.

End AsyncJSONCommands.

(** ** Vocabulary of the statements *)

(** The text handed to the store for [obj]: keys decoded first when
    [decode_keys] is set, then the value encoded. *)
Definition payload (c : Client) (decode_keys : bool) (obj : PyVal) : Result string :=
  match (if decode_keys then decode_dict_keys c obj else Ok obj) with
  | Ok obj => _encode c obj
  | Raise e => Raise e
  end.

(** The existence flag of a conditional [set]. *)
Definition flag_tokens (nx xx : bool) : list Token :=
  if nx then [TStr "NX"] else if xx then [TStr "XX"] else [].

Definition set_command (name path enc : string) (nx xx : bool) : list Token :=
  [TStr "JSON.SET"; TStr name; TStr path; TStr enc] ++ flag_tokens nx xx.

Definition expire_command (name : string) (ttl : Z) : list Token :=
  [TStr "EXPIRE"; TStr name; TInt ttl].

(** The tokens of a [get]. *)
Definition get_command (name : string) (args : list (option string))
  (no_escape : bool) : list Token :=
  [TStr "JSON.GET"; TStr name]
    ++ (if no_escape then [TStr "noescape"] else [])
    ++ match args with
       | [] => [TStr Path.root_path]
       | _ => map (fun p => TStr (str p)) args
       end.

(** The groups of an [mset], one per triplet. *)
Definition triplet_tokens (triplets : list (string * string * PyVal))
  (encs : list string) : list Token :=
  flat_map (fun te => [TStr (fst (fst (fst te))); TStr (snd (fst (fst te))); TStr (snd te)])
           (combine triplets encs).

(** [encoded c values texts]: [_encode] succeeds on every value, and
    [texts] are the results in the same order. *)
Definition encoded (c : Client) (values : list PyVal) (texts : list string) : Prop :=
  Forall2 (fun o s => _encode c o = Ok s) values texts.

(** Does the text [s] occur in one of the arguments of the exception? *)
Definition occurs (s : string) (a : string) : bool :=
  match index 0 s a with
  | Some _ => true
  | None => false
  end.

Definition names (e : PyExc) (s : string) : bool :=
  match e with
  | Exception_ msg => occurs s msg
  | DataError args => existsb (occurs s) args
  | TypeError msg => occurs s msg
  | OtherError _ msg => occurs s msg
  end.

(** ** A store double *)

Module Double.

(** Encodes the scalars the examples use; refuses anything else. *)
Definition encode (v : PyVal) : Result string :=
  match v with
  | PyNone => Ok "null"
  | PyBool true => Ok "true"
  | PyBool false => Ok "false"
  | PyInt z => Ok (NilZero.string_of_int (Z.to_int z))
  | _ => Raise (TypeError "Object is not JSON serializable")
  end.

(** The key [nulldoc] holds a JSON [null]; for the key [missing] the reply
    cannot be decoded; every other command is acknowledged. *)
Definition reply (tr : Trace) (tokens : list Token) : Result PyVal :=
  match tokens with
  | TStr "JSON.GET" :: TStr "nulldoc" :: _ => Ok PyNone
  | TStr "JSON.GET" :: TStr "missing" :: _ =>
      Raise (TypeError "the JSON object must be str, bytes or bytearray, not NoneType")
  | _ => Ok (PyStr "OK")
  end.

Definition reply_batch (tr : Trace) (transaction : bool) (shard_hint : option string)
  (commands : list (list Token)) (raise_on_error : bool) : Result (list PyVal) :=
  Ok (map (fun _ => PyBool true) commands).

Definition client : Client :=
  {| send_command := reply;
     send_batch := reply_batch;
     _encode := encode;
     decode_dict_keys := fun obj => Ok obj |}.

End Double.

(** ** A client that decodes keys as the runtime does *)

Module Keyed.

(** [decode_dict_keys] goes through [obj.keys()], which only a dict has;
    text keys are left as they are. *)
Definition decode_dict_keys (obj : PyVal) : Result PyVal :=
  match obj with
  | PyDict _ => Ok obj
  | _ => Raise (OtherError "AttributeError" "object has no attribute 'keys'")
  end.

Definition client : Client :=
  mkClient Double.reply Double.reply_batch Double.encode decode_dict_keys.

End Keyed.

Import AsyncJSONCommands.

(** ** Vocabulary of the further statements *)

(** [m] either raises with nothing sent, or sends exactly one command,
    which starts with the tokens [prefix]. *)
Definition sends_one {A : Type} (prefix : list Token) (m : M A) : Prop :=
  forall tr,
    (exists e, m tr = (Raise e, tr))
    \/ (exists rest, snd (m tr) = tr ++ [SentCommand (prefix ++ rest)]).

(** The text of [s] before its first dot, all of [s] when it has none. *)
Fixpoint before_dot (s : string) : string :=
  match s with
  | EmptyString => ""
  | String ch rest => if Ascii.eqb ch "." then "" else String ch (before_dot rest)
  end.

(** The file paths [set_path] visits, in order. *)
Definition walk_paths (fs : FileSystem) (root_folder : string) : list string :=
  flat_map (fun entry => map (join fs (fst (fst entry))) (snd entry))
           (walk fs root_folder).

(** The dict that maps every path, in order, to [good path]. *)
Definition marked (good : string -> bool) (paths : list string)
  : list (string * bool) :=
  fold_left (fun d file_path => dict_set d file_path (good file_path)) paths [].

(** A file that parses, and whose content encodes to [enc]. *)
Definition parses (c : Client) (fs : FileSystem) (decode_keys : bool)
  (file_path : string) (enc : string) : Prop :=
  exists text content,
    read fs file_path = Ok text
    /\ loads fs text = Ok content
    /\ payload c decode_keys content = Ok enc.

(** A file that can be read but is not JSON. *)
Definition malformed (fs : FileSystem) (file_path : string) : Prop :=
  exists text msg,
    read fs file_path = Ok text /\ loads fs text = Raise (JSONDecodeError msg).

(** One turn of the inner loop of [set_path]: its [try] block. *)
Definition turn (c : Client) (fs : FileSystem) (json_path file_path : string)
  (nx xx decode_keys : bool) (acc : list (string * bool))
  : M (list (string * bool)) :=
  try_except_JSONDecodeError
    (file_name <- lift (item0 (rsplit_dot file_path)) ;;
     done <- set_file c fs file_name json_path file_path nx xx decode_keys ;;
     ret (dict_set acc file_path true))
    (ret (dict_set acc file_path false)).

(** The turns of [set_path] over file paths, one after the other. *)
Fixpoint turns (c : Client) (fs : FileSystem) (json_path : string)
  (paths : list string) (nx xx decode_keys : bool)
  (acc : list (string * bool)) : M (list (string * bool)) :=
  match paths with
  | [] => ret acc
  | file_path :: rest =>
      acc <- turn c fs json_path file_path nx xx decode_keys acc ;;
      turns c fs json_path rest nx xx decode_keys acc
  end.

(** An event that is a single [JSON.SET] command. *)
Definition is_json_set (ev : Event) : Prop :=
  exists rest, ev = SentCommand (TStr "JSON.SET" :: rest).

(** ** A disk double *)

Module Disk.

Definition walk (root_folder : string) : list (string * list string * list string) :=
  if String.eqb root_folder "./data" then
    [("./data", ["sub"], ["a.json"; "bad.json"]); ("./data/sub", [], ["b.json"])]
  else if String.eqb root_folder "data" then
    [("data", [], ["a.json"; "bad.json"; "notes.v2.json"])]
  else if String.eqb root_folder "mixed" then
    [("mixed", ["sub"], ["bad.json"]); ("mixed/sub", [], ["a.json"; "b.json"])]
  else [].

Definition join (root file : string) : string := root ++ "/" ++ file.

Definition read (file_name : string) : Result string :=
  if String.eqb (substring (String.length file_name - 8) 8 file_name) "bad.json"
  then Ok "{"
  else Ok "1".

Definition loads (text : string) : Result PyVal :=
  if String.eqb text "1" then Ok (PyInt 1)
  else Raise (JSONDecodeError "Expecting property name enclosed in double quotes").

Definition fs : FileSystem :=
  mkFileSystem walk join read loads.

End Disk.

(** Unfolds the monad and the dispatch of a command. *)
Ltac run :=
  unfold bind, lift, ret, raise, try_except_TypeError,
    execute_command, Redis.execute_command; simpl.

(** ** Runs on the store double *)

Example run_arrappend :
  arrappend Double.client "doc1" (Given (Some ".a.list")) [PyInt 2; PyInt 3] []
  = (Ok (PyStr "OK"),
     [SentCommand [TStr "JSON.ARRAPPEND"; TStr "doc1"; TStr ".a.list";
                   TStr "2"; TStr "3"]]).
Proof. reflexivity. Qed.

Example run_set_ttl :
  set Double.client "doc1" "." (PyInt (-7)) false true (Some 60%Z) false []
  = (Ok (PyList [PyBool true; PyBool true]),
     [SentBatch true None
        [[TStr "JSON.SET"; TStr "doc1"; TStr "."; TStr "-7"; TStr "XX"];
         [TStr "EXPIRE"; TStr "doc1"; TInt 60]]]).
Proof. reflexivity. Qed.

Example run_set_both_flags :
  set Double.client "doc1" "." (PyInt 1) true true (Some 60%Z) false []
  = (Raise (Exception_ nx_xx_message), []).
Proof. reflexivity. Qed.

Example run_debug_memory :
  debug Double.client "MEMORY" (Given (Some "doc1")) Omitted []
  = (Ok (PyStr "OK"),
     [SentCommand [TStr "JSON.DEBUG"; TStr "MEMORY"; TStr "doc1"; TStr "."]]).
Proof. reflexivity. Qed.

Example run_debug_no_key :
  debug Double.client "MEMORY" Omitted Omitted []
  = (Raise (DataError ["No key specified"]), []).
Proof. reflexivity. Qed.

Example run_get_paths :
  get Double.client "doc1" [Some ".a"; Some ".b"] true []
  = (Ok (PyStr "OK"),
     [SentCommand [TStr "JSON.GET"; TStr "doc1"; TStr "noescape"; TStr ".a"; TStr ".b"]]).
Proof. reflexivity. Qed.

(** ** The loops, as list equations *)

Section Loops.

Variable c : Client.

Lemma append_encoded_ok (args : list PyVal) (encs : list string) :
  encoded c args encs ->
  forall pieces, append_encoded c pieces args = Ok (pieces ++ map TStr encs).
Proof.
  induction 1 as [| o s args encs Ho _ IH]; intros pieces; simpl.
  - now rewrite app_nil_r.
  - rewrite Ho, IH, <- app_assoc. reflexivity.
Qed.

Lemma append_encoded_inv (args : list PyVal) :
  forall pieces out,
    append_encoded c pieces args = Ok out ->
    exists encs, encoded c args encs /\ out = pieces ++ map TStr encs.
Proof.
  induction args as [| o args IH]; intros pieces out H; simpl in H.
  - exists []. split; [constructor |]. inversion H. now rewrite app_nil_r.
  - destruct (_encode c o) as [s |] eqn:Ho; [| discriminate].
    destruct (IH _ _ H) as (encs & Henc & ->).
    exists (s :: encs). split; [now constructor |].
    now rewrite <- app_assoc.
Qed.

Lemma append_paths_map (args : list (option string)) :
  forall pieces,
    append_paths pieces args = pieces ++ map (fun p => TStr (str p)) args.
Proof.
  induction args as [| p args IH]; intros pieces; simpl.
  - now rewrite app_nil_r.
  - rewrite IH, <- app_assoc. reflexivity.
Qed.

Lemma extend_triplets_ok (triplets : list (string * string * PyVal))
  (encs : list string) :
  encoded c (map snd triplets) encs ->
  forall pieces,
    extend_triplets c pieces triplets = Ok (pieces ++ triplet_tokens triplets encs).
Proof.
  revert encs.
  induction triplets as [| [[key path] value] triplets IH];
    intros encs H pieces; inversion H as [| o s os ss Ho Hrest]; subst; simpl.
  - now rewrite app_nil_r.
  - rewrite Ho, (IH _ Hrest). unfold triplet_tokens. simpl.
    now rewrite <- app_assoc.
Qed.

Lemma triplet_tokens_length (triplets : list (string * string * PyVal))
  (encs : list string) :
  length triplets = length encs ->
  length (triplet_tokens triplets encs) = 3 * length triplets.
Proof.
  revert encs. induction triplets as [| t triplets IH]; intros [| s encs] H;
    simpl in *; try discriminate; [reflexivity |].
  unfold triplet_tokens in *. simpl. rewrite IH by lia. lia.
Qed.

Lemma triplet_tokens_nth (triplets : list (string * string * PyVal))
  (encs : list string) (i : nat) (key path s : string) (value : PyVal) :
  nth_error triplets i = Some (key, path, value) ->
  nth_error encs i = Some s ->
  nth_error (triplet_tokens triplets encs) (3 * i) = Some (TStr key)
  /\ nth_error (triplet_tokens triplets encs) (3 * i + 1) = Some (TStr path)
  /\ nth_error (triplet_tokens triplets encs) (3 * i + 2) = Some (TStr s).
Proof.
  revert encs i.
  induction triplets as [| t triplets IH]; intros [| e encs] [| i] Ht He;
    simpl in Ht, He; try discriminate.
  - inversion Ht; inversion He; subst. now cbn.
  - replace (3 * S i) with (S (S (S (3 * i)))) by lia.
    unfold triplet_tokens in *. simpl. apply (IH _ _ Ht He).
Qed.

End Loops.

(** ** Token order of the builders *)

Section Builders.

Variable c : Client.

(** C8.  Array append and array insert encode each payload value on its
    own with [_encode] and add the texts as separate tokens in the
    caller's order; the command is the verb, the key, the path, then the
    payload (for an insert the index stands before the values), and
    nothing follows the payload. *)
Theorem variadic_payload_tokens (name : string) (path : Passed (option string))
  (ipath : string) (index : Z) (args : list PyVal) (encs : list string)
  (tr : Trace) :
  encoded c args encs ->
  let appended :=
    [TStr "JSON.ARRAPPEND"; TStr name;
     TStr (str (or_default (Some Path.root_path) path))] ++ map TStr encs in
  let inserted :=
    [TStr "JSON.ARRINSERT"; TStr name; TStr ipath; TInt index] ++ map TStr encs in
  arrappend c name path args tr
    = (send_command c tr appended, tr ++ [SentCommand appended])
  /\ arrinsert c name ipath index args tr
    = (send_command c tr inserted, tr ++ [SentCommand inserted]).
Proof.
  intros H appended inserted. split.
  - unfold arrappend. run. now rewrite (append_encoded_ok c args encs H).
  - unfold arrinsert. run. now rewrite (append_encoded_ok c args encs H).
Qed.

(** C7.  [mget] sends the keys in the caller's order and then the one
    shared path; [mset] sends one key, path, encoded value group per
    triplet, in the caller's order: the group of triplet [i] sits at
    positions [1 + 3 i .. 3 + 3 i]. *)
Theorem multi_key_groups (keys : list string) (path : string)
  (triplets : list (string * string * PyVal)) (encs : list string)
  (tr : Trace) :
  encoded c (map snd triplets) encs ->
  let read := TStr "JSON.MGET" :: map TStr keys ++ [TStr path] in
  let written := TStr "JSON.MSET" :: triplet_tokens triplets encs in
  mget c keys path tr = (send_command c tr read, tr ++ [SentCommand read])
  /\ mset c triplets tr = (send_command c tr written, tr ++ [SentCommand written])
  /\ (forall i key, nth_error keys i = Some key ->
                    nth_error read (1 + i) = Some (TStr key))
  /\ nth_error read (1 + length keys) = Some (TStr path)
  /\ length read = 2 + length keys
  /\ (forall i key p value,
        nth_error triplets i = Some (key, p, value) ->
        exists s, _encode c value = Ok s
                  /\ nth_error written (1 + 3 * i) = Some (TStr key)
                  /\ nth_error written (2 + 3 * i) = Some (TStr p)
                  /\ nth_error written (3 + 3 * i) = Some (TStr s))
  /\ length written = 1 + 3 * length triplets.
Proof.
  intros H read written.
  assert (Hlen : length triplets = length encs).
  { rewrite <- (length_map snd triplets). exact (Forall2_length H). }
  repeat split.
  - unfold mset. run. now rewrite (extend_triplets_ok c triplets encs H).
  - intros i key Hi. subst read. simpl.
    rewrite nth_error_app1 by (rewrite length_map; apply nth_error_Some; congruence).
    now rewrite nth_error_map, Hi.
  - subst read. simpl.
    rewrite nth_error_app2 by (rewrite length_map; lia).
    now rewrite length_map, Nat.sub_diag.
  - subst read. simpl. rewrite length_app, length_map. simpl. lia.
  - intros i key p value Hi.
    assert (Hlt : i < length encs).
    { rewrite <- Hlen. apply nth_error_Some. congruence. }
    destruct (nth_error encs i) as [s |] eqn:Hs;
      [| apply nth_error_None in Hs; lia].
    exists s.
    assert (Hv : nth_error (map snd triplets) i = Some value).
    { now rewrite nth_error_map, Hi. }
    destruct (triplet_tokens_nth triplets encs i key p s value Hi Hs)
      as (H0 & H1 & H2).
    repeat split.
    + clear - H Hv Hs. revert i Hv Hs.
      induction H as [| o t os ts Ho _ IH]; intros [| i] Hv Hs;
        simpl in Hv, Hs; try discriminate.
      * inversion Hv; inversion Hs; subst. exact Ho.
      * exact (IH _ Hv Hs).
    + exact H0.
    + replace (2 + 3 * i) with (S (3 * i + 1)) by lia. exact H1.
    + replace (3 + 3 * i) with (S (3 * i + 2)) by lia. exact H2.
  - subst written. simpl. now rewrite triplet_tokens_length.
Qed.

End Builders.

(** ** Optional bounds and modifiers *)

Section Modifiers.

Variable c : Client.

(** C10.  With [start] left at [None], [arrindex] sends the verb, the key,
    the path and the encoded scalar and nothing more, whatever [stop] is:
    a given [stop] is dropped without an error.  With [start] given,
    [start] follows the scalar, and [stop] follows [start] when it is
    given too. *)
Theorem arrindex_stop_needs_start (name path : string) (scalar : PyVal)
  (enc : string) (stop : option Z) (tr : Trace) :
  _encode c scalar = Ok enc ->
  let whole := [TStr "JSON.ARRINDEX"; TStr name; TStr path; TStr enc] in
  arrindex c name path scalar None stop tr
    = (send_command c tr whole, tr ++ [SentCommand whole])
  /\ arrindex c name path scalar None stop tr
     = arrindex c name path scalar None None tr
  /\ forall start,
      let bounded :=
        whole ++ TInt start :: match stop with
                               | Some stop => [TInt stop]
                               | None => []
                               end in
      arrindex c name path scalar (Some start) stop tr
        = (send_command c tr bounded, tr ++ [SentCommand bounded]).
Proof.
  intros H whole. unfold arrindex. run. rewrite H.
  repeat split. intros start. now destruct stop.
Qed.

(** C2, as the code has it.  A [set] with both [nx] and [xx] raises and
    sends nothing.  The object is prepared first (its keys decoded, if
    asked for, then encoded): when that raises, [set] raises that
    exception; when it succeeds, [set] raises the bare [Exception] with
    the mutual exclusion message.  With at most one of the two flags, the
    command sent (alone, or first in the batch of a positive [ttl]) is
    the verb, key, path and payload followed by at most one flag token,
    which is then the last token. *)
Theorem set_nx_xx_exclusive (name path : string) (obj : PyVal) (nx xx : bool)
  (ttl : option Z) (decode_keys : bool) (tr : Trace) :
  (nx = true -> xx = true ->
   snd (set c name path obj nx xx ttl decode_keys tr) = tr
   /\ is_Ok (fst (set c name path obj nx xx ttl decode_keys tr)) = false
   /\ (forall enc, payload c decode_keys obj = Ok enc ->
         set c name path obj nx xx ttl decode_keys tr
         = (Raise (Exception_ nx_xx_message), tr))
   /\ (forall e, payload c decode_keys obj = Raise e ->
         set c name path obj nx xx ttl decode_keys tr = (Raise e, tr)))
  /\ (forall enc, payload c decode_keys obj = Ok enc -> nx && xx = false ->
      exists flags,
        (flags = [] \/ flags = [TStr "NX"] \/ flags = [TStr "XX"])
        /\ flags = flag_tokens nx xx
        /\ let command :=
             [TStr "JSON.SET"; TStr name; TStr path; TStr enc] ++ flags in
           snd (set c name path obj nx xx ttl decode_keys tr)
           = tr ++ [match ttl with
                    | Some t =>
                        if (t >? 0)%Z
                        then SentBatch true None [command; expire_command name t]
                        else SentCommand command
                    | None => SentCommand command
                    end]).
Proof.
  unfold payload, set. split.
  - intros -> ->. run.
    destruct (if decode_keys then decode_dict_keys c obj else Ok obj)
      as [obj' |]; simpl;
      [| repeat split; intros; try discriminate; congruence].
    destruct (_encode c obj') as [enc' |]; simpl;
      repeat split; intros; try discriminate; congruence.
  - intros enc Hp Hflags. exists (flag_tokens nx xx).
    split; [| split].
    + unfold flag_tokens. destruct nx, xx; auto.
    + reflexivity.
    + run.
      destruct (if decode_keys then decode_dict_keys c obj else Ok obj)
        as [obj' |]; simpl in *; [| discriminate].
      rewrite Hp. rewrite Hflags. unfold flag_tokens.
      destruct nx, xx; simpl in *; try discriminate;
        destruct ttl as [t |]; simpl; try reflexivity;
        destruct (t >? 0)%Z; simpl; try reflexivity;
        unfold Pipeline.execute; simpl;
        match goal with
        | |- context [send_batch ?a ?b ?d ?e ?f ?g] =>
            destruct (send_batch a b d e f g)
        end; reflexivity.
Qed.

(** C3.  A [set] with a positive [ttl] sends one batch and nothing else:
    the batch is a transaction of exactly two commands, the [JSON.SET]
    first and an [EXPIRE] of the same key second, and what [set] returns
    is the list of the batch's replies. *)
Theorem set_positive_ttl_is_atomic_pair (name path : string) (obj : PyVal)
  (nx xx : bool) (ttl : Z) (decode_keys : bool) (enc : string) (tr : Trace) :
  (0 < ttl)%Z ->
  payload c decode_keys obj = Ok enc ->
  nx && xx = false ->
  let batch := [set_command name path enc nx xx; expire_command name ttl] in
  set c name path obj nx xx (Some ttl) decode_keys tr
  = (match send_batch c tr true None batch true with
     | Ok replies => Ok (PyList replies)
     | Raise e => Raise e
     end,
     tr ++ [SentBatch true None batch]).
Proof.
  intros Httl Hp Hflags batch. unfold payload, set in *. run.
  destruct (if decode_keys then decode_dict_keys c obj else Ok obj)
    as [obj' |]; simpl in *; [| discriminate].
  rewrite Hp, Hflags.
  replace (ttl >? 0)%Z with true by (symmetry; apply Z.gtb_lt; lia).
  subst batch. unfold set_command, flag_tokens, expire_command.
  destruct nx, xx; simpl in *; try discriminate;
    unfold Pipeline.execute; simpl;
    match goal with
    | |- context [send_batch ?a ?b ?d ?e ?f ?g] =>
        destruct (send_batch a b d e f g)
    end; reflexivity.
Qed.

(** C9.  A [ttl] of zero or below is ignored: [set] behaves exactly as
    with no [ttl], and when the payload encodes and the flags are not both
    set this is the single [JSON.SET] command, sent at once, with no
    expiry command and no exception raised by [set] itself. *)
Theorem set_nonpositive_ttl_ignored (name path : string) (obj : PyVal)
  (nx xx : bool) (ttl : Z) (decode_keys : bool) (tr : Trace) :
  (ttl <= 0)%Z ->
  set c name path obj nx xx (Some ttl) decode_keys tr
  = set c name path obj nx xx None decode_keys tr
  /\ forall enc,
      payload c decode_keys obj = Ok enc ->
      nx && xx = false ->
      set c name path obj nx xx (Some ttl) decode_keys tr
      = (send_command c tr (set_command name path enc nx xx),
         tr ++ [SentCommand (set_command name path enc nx xx)]).
Proof.
  intros Httl.
  assert (Hgt : (ttl >? 0)%Z = false) by (rewrite Z.gtb_ltb; apply Z.ltb_ge; lia).
  split.
  - unfold set. now rewrite Hgt.
  - intros enc Hp Hflags. unfold payload, set in *. rewrite Hgt. run.
    destruct (if decode_keys then decode_dict_keys c obj else Ok obj)
      as [obj' |]; simpl in *; [| discriminate].
    rewrite Hp, Hflags. unfold set_command, flag_tokens.
    destruct nx, xx; simpl in *; try discriminate; reflexivity.
Qed.

End Modifiers.

(** ** Missing documents, default paths, subcommands *)

Section Reads.

Variable c : Client.

(** C1, as the code has it.  A [get] sends one [JSON.GET] command: the
    key, [noescape] when asked for, then the root path or the given paths
    in order.  When the dispatch raises a [TypeError], [get] returns
    [None] instead of raising; [None] is also what a stored JSON [null]
    reads as, so the returned value does not tell the two apart.  Every
    other reply, value or exception, is passed on unchanged. *)
Theorem get_undecodable_reply_is_None (name : string)
  (args : list (option string)) (no_escape : bool) (tr : Trace) :
  let command := get_command name args no_escape in
  snd (get c name args no_escape tr) = tr ++ [SentCommand command]
  /\ (forall msg, send_command c tr command = Raise (TypeError msg) ->
                  fst (get c name args no_escape tr) = Ok PyNone)
  /\ (forall v, send_command c tr command = Ok v ->
                fst (get c name args no_escape tr) = Ok v)
  /\ (forall e, send_command c tr command = Raise e ->
                (forall msg, e <> TypeError msg) ->
                fst (get c name args no_escape tr) = Raise e).
Proof.
  intros command.
  assert (Hrun : get c name args no_escape tr
                 = match send_command c tr command with
                   | Raise (TypeError _) => (Ok PyNone, tr ++ [SentCommand command])
                   | r => (r, tr ++ [SentCommand command])
                   end).
  { unfold get, command, get_command. run.
    destruct args as [| p args]; simpl.
    - destruct no_escape; simpl;
        match goal with
        | |- context [send_command c tr ?t] => destruct (send_command c tr t) as [v | []]
        end; reflexivity.
    - destruct no_escape; simpl; rewrite append_paths_map; simpl;
        match goal with
        | |- context [send_command c tr ?t] => destruct (send_command c tr t) as [v | []]
        end; reflexivity. }
  rewrite Hrun. repeat split.
  - destruct (send_command c tr command) as [v | []]; reflexivity.
  - intros msg ->. reflexivity.
  - intros v ->. reflexivity.
  - intros e -> Hne. destruct e; try reflexivity. now elim (Hne msg).
Qed.

(** C4, as the code has it.  For every method whose signature gives the
    path the root path as its default, leaving the path out is the same
    call as passing the root path, and a [get] with no path is a [get] of
    the root path.  [strlen] has [None] as its default: with the path left
    out it sends the verb and the key only. *)
Theorem omitted_path_is_root (name : string) (tr : Trace) :
  (forall args, arrappend c name Omitted args tr
                = arrappend c name (Given (Some Path.root_path)) args tr)
  /\ arrlen c name Omitted tr = arrlen c name (Given (Some Path.root_path)) tr
  /\ (forall index, arrpop c name Omitted index tr
                    = arrpop c name (Given (Some Path.root_path)) index tr)
  /\ type c name Omitted tr = type c name (Given (Some Path.root_path)) tr
  /\ resp c name Omitted tr = resp c name (Given (Some Path.root_path)) tr
  /\ objkeys c name Omitted tr = objkeys c name (Given (Some Path.root_path)) tr
  /\ objlen c name Omitted tr = objlen c name (Given (Some Path.root_path)) tr
  /\ clear c name Omitted tr = clear c name (Given (Some Path.root_path)) tr
  /\ delete c name Omitted tr = delete c name (Given (Some Path.root_path)) tr
  /\ forget c name Omitted tr = forget c name (Given (Some Path.root_path)) tr
  /\ toggle c name Omitted tr = toggle c name (Given (Some Path.root_path)) tr
  /\ (forall value, strappend c name value Omitted tr
                    = strappend c name value (Given (Some Path.root_path)) tr)
  /\ (forall subcommand key,
        debug c subcommand key Omitted tr
        = debug c subcommand key (Given (Some Path.root_path)) tr)
  /\ (forall no_escape, get c name [] no_escape tr
                        = get c name [Some Path.root_path] no_escape tr)
  /\ strlen c name Omitted tr
     = (send_command c tr [TStr "JSON.STRLEN"; TStr name],
        tr ++ [SentCommand [TStr "JSON.STRLEN"; TStr name]])
  /\ strlen c name (Given (Some Path.root_path)) tr
     = (send_command c tr [TStr "JSON.STRLEN"; TStr name; TStr Path.root_path],
        tr ++ [SentCommand [TStr "JSON.STRLEN"; TStr name; TStr Path.root_path]]).
Proof.
  repeat split.
Qed.

(** C6, as the code has it.  [debug] with a subcommand outside
    [valid_subcommands] raises a [DataError] and sends nothing; the
    arguments of the exception are the fixed text and the printed list of
    valid subcommands, so they name every valid subcommand (and not the
    rejected one, unless it occurs in that text). *)
Theorem debug_rejects_unknown_subcommand (subcommand : string)
  (key path : Passed (option string)) (tr : Trace) :
  str_in subcommand valid_subcommands = false ->
  let e := DataError ["The only valid subcommands are "; "['MEMORY', 'HELP']"] in
  debug c subcommand key path tr = (Raise e, tr)
  /\ forall valid, In valid valid_subcommands -> names e valid = true.
Proof.
  intros H e. split.
  - unfold debug. now rewrite H.
  - intros valid [<- | [<- | []]]; reflexivity.
Qed.

End Reads.

(** ** The statements at concrete calls *)

Lemma variadic_payload_tokens_witness :
  encoded Double.client [PyInt 2; PyInt 3] ["2"; "3"]
  /\ arrappend Double.client "doc1" (Given (Some ".a.list")) [PyInt 2; PyInt 3] []
     = (Ok (PyStr "OK"),
        [SentCommand [TStr "JSON.ARRAPPEND"; TStr "doc1"; TStr ".a.list";
                      TStr "2"; TStr "3"]])
  /\ arrinsert Double.client "doc1" ".a.list" 0 [PyInt 2; PyInt 3] []
     = (Ok (PyStr "OK"),
        [SentCommand [TStr "JSON.ARRINSERT"; TStr "doc1"; TStr ".a.list"; TInt 0;
                      TStr "2"; TStr "3"]]).
Proof.
  assert (H : encoded Double.client [PyInt 2; PyInt 3] ["2"; "3"]).
  { repeat constructor. }
  split; [exact H |].
  exact (variadic_payload_tokens Double.client "doc1" (Given (Some ".a.list"))
           ".a.list" 0 [PyInt 2; PyInt 3] ["2"; "3"] [] H).
Defined.

Lemma multi_key_groups_witness :
  encoded Double.client (map snd [("k1", ".", PyInt 1); ("k2", ".a", PyNone)])
          ["1"; "null"]
  /\ mget Double.client ["k1"; "k2"] ".a" []
     = (Ok (PyStr "OK"),
        [SentCommand [TStr "JSON.MGET"; TStr "k1"; TStr "k2"; TStr ".a"]])
  /\ mset Double.client [("k1", ".", PyInt 1); ("k2", ".a", PyNone)] []
     = (Ok (PyStr "OK"),
        [SentCommand [TStr "JSON.MSET"; TStr "k1"; TStr "."; TStr "1";
                      TStr "k2"; TStr ".a"; TStr "null"]]).
Proof.
  assert (H : encoded Double.client
                (map snd [("k1", ".", PyInt 1); ("k2", ".a", PyNone)])
                ["1"; "null"]).
  { repeat constructor. }
  split; [exact H |].
  destruct (multi_key_groups Double.client ["k1"; "k2"] ".a"
              [("k1", ".", PyInt 1); ("k2", ".a", PyNone)] ["1"; "null"] [] H)
    as (Hget & Hset & _).
  split; [exact Hget | exact Hset].
Defined.

Lemma arrindex_stop_needs_start_witness :
  _encode Double.client (PyInt 3) = Ok "3"
  /\ arrindex Double.client "doc1" ".a.list" (PyInt 3) None (Some 5%Z) []
     = (Ok (PyStr "OK"),
        [SentCommand [TStr "JSON.ARRINDEX"; TStr "doc1"; TStr ".a.list"; TStr "3"]]).
Proof.
  split; [reflexivity |].
  exact (proj1 (arrindex_stop_needs_start Double.client "doc1" ".a.list"
                  (PyInt 3) "3" (Some 5%Z) [] eq_refl)).
Defined.

Lemma set_nx_xx_exclusive_witness :
  payload Double.client false (PyInt 1) = Ok "1"
  /\ set Double.client "doc1" "." (PyInt 1) true true None false []
     = (Raise (Exception_ nx_xx_message), [])
  /\ payload Keyed.client true (PyInt 1)
     = Raise (OtherError "AttributeError" "object has no attribute 'keys'")
  /\ set Keyed.client "doc1" "." (PyInt 1) true true None true []
     = (Raise (OtherError "AttributeError" "object has no attribute 'keys'"), [])
  /\ (exists flags,
        (flags = [] \/ flags = [TStr "NX"] \/ flags = [TStr "XX"])
        /\ snd (set Double.client "doc1" "." (PyInt 1) true false None false [])
           = [SentCommand ([TStr "JSON.SET"; TStr "doc1"; TStr "."; TStr "1"] ++ flags)]).
Proof.
  split; [reflexivity |]. split; [| split; [reflexivity |]; split].
  - destruct (set_nx_xx_exclusive Double.client "doc1" "." (PyInt 1) true true
                None false []) as (Hboth & _).
    destruct (Hboth eq_refl eq_refl) as (_ & _ & Hexc & _).
    exact (Hexc "1" eq_refl).
  - destruct (set_nx_xx_exclusive Keyed.client "doc1" "." (PyInt 1) true true
                None true []) as (Hboth & _).
    destruct (Hboth eq_refl eq_refl) as (_ & _ & _ & Hprep).
    exact (Hprep _ eq_refl).
  - destruct (set_nx_xx_exclusive Double.client "doc1" "." (PyInt 1) true false
                None false []) as (_ & Hone).
    destruct (Hone "1" eq_refl eq_refl) as (flags & Hshape & _ & Hsent).
    exists flags. split; [exact Hshape | exact Hsent].
Defined.

Lemma set_positive_ttl_is_atomic_pair_witness :
  (0 < 60)%Z
  /\ payload Double.client false (PyInt 1) = Ok "1"
  /\ true && false = false
  /\ set Double.client "doc1" "." (PyInt 1) true false (Some 60%Z) false []
     = (Ok (PyList [PyBool true; PyBool true]),
        [SentBatch true None
           [[TStr "JSON.SET"; TStr "doc1"; TStr "."; TStr "1"; TStr "NX"];
            [TStr "EXPIRE"; TStr "doc1"; TInt 60]]]).
Proof.
  split; [reflexivity |]. split; [reflexivity |]. split; [reflexivity |].
  exact (set_positive_ttl_is_atomic_pair Double.client "doc1" "." (PyInt 1)
           true false 60 false "1" [] eq_refl eq_refl eq_refl).
Defined.

Lemma set_nonpositive_ttl_ignored_witness :
  (0 <= 0)%Z
  /\ set Double.client "doc1" "." (PyInt 1) false false (Some 0%Z) false []
     = set Double.client "doc1" "." (PyInt 1) false false None false []
  /\ set Double.client "doc1" "." (PyInt 1) false false (Some 0%Z) false []
     = (Ok (PyStr "OK"),
        [SentCommand [TStr "JSON.SET"; TStr "doc1"; TStr "."; TStr "1"]]).
Proof.
  assert (H : (0 <= 0)%Z) by (intros Hc; discriminate Hc).
  split; [exact H |].
  destruct (set_nonpositive_ttl_ignored Double.client "doc1" "." (PyInt 1)
              false false 0 false [] H) as (Hsame & Hone).
  split; [exact Hsame | exact (Hone "1" eq_refl eq_refl)].
Defined.

Lemma get_undecodable_reply_is_None_witness :
  send_command Double.client [] (get_command "missing" [] false)
  = Raise (TypeError "the JSON object must be str, bytes or bytearray, not NoneType")
  /\ fst (get Double.client "missing" [] false []) = Ok PyNone.
Proof.
  split; [reflexivity |].
  destruct (get_undecodable_reply_is_None Double.client "missing" [] false [])
    as (_ & Hnone & _).
  exact (Hnone _ eq_refl).
Defined.

Lemma debug_rejects_unknown_subcommand_witness :
  str_in "FOO" valid_subcommands = false
  /\ debug Double.client "FOO" (Given (Some "doc1")) Omitted []
     = (Raise (DataError ["The only valid subcommands are "; "['MEMORY', 'HELP']"]),
        []).
Proof.
  split; [reflexivity |].
  exact (proj1 (debug_rejects_unknown_subcommand Double.client "FOO"
                  (Given (Some "doc1")) Omitted [] eq_refl)).
Defined.

(** ** Where the code departs from the specification *)

(** C1.  A key that is missing and a key that holds a JSON [null] give the
    same result: [None]. *)
Lemma get_missing_reads_as_null :
  send_command Double.client [] (get_command "nulldoc" [] false) = Ok PyNone
  /\ (exists msg,
        send_command Double.client [] (get_command "missing" [] false)
        = Raise (TypeError msg))
  /\ fst (get Double.client "missing" [] false []) = Ok PyNone
  /\ fst (get Double.client "missing" [] false [])
     = fst (get Double.client "nulldoc" [] false []).
Proof.
  split; [reflexivity |]. split; [eexists; reflexivity |].
  split; reflexivity.
Qed.

(** C2.  With both flags set and [decode_keys] asked for on an object
    that is not a dict, [set] does not raise the mutual exclusion
    exception: the key decoding, which runs first, raises its own. *)
Lemma set_both_flags_raises_the_preparation_error :
  set Keyed.client "doc1" "." (PyInt 1) true true None true []
  = (Raise (OtherError "AttributeError" "object has no attribute 'keys'"), [])
  /\ set Keyed.client "doc1" "." (PyInt 1) true true None true []
     <> (Raise (Exception_ nx_xx_message), []).
Proof.
  split; [reflexivity | discriminate].
Qed.

(** C4.  [strlen] with the path left out and [strlen] with the root path
    send different token lists. *)
Lemma strlen_omitted_path_differs :
  snd (strlen Double.client "doc1" Omitted [])
  = [SentCommand [TStr "JSON.STRLEN"; TStr "doc1"]]
  /\ snd (strlen Double.client "doc1" (Given (Some Path.root_path)) [])
     = [SentCommand [TStr "JSON.STRLEN"; TStr "doc1"; TStr "."]]
  /\ strlen Double.client "doc1" Omitted []
     <> strlen Double.client "doc1" (Given (Some Path.root_path)) [].
Proof.
  split; [reflexivity |]. split; [reflexivity |]. discriminate.
Qed.

(** C6.  The exception for an unknown subcommand does not name it. *)
Lemma debug_message_omits_subcommand :
  exists e,
    debug Double.client "FOO" Omitted Omitted [] = (Raise e, [])
    /\ names e "FOO" = false
    /\ names e "MEMORY" = true.
Proof.
  eexists. split; [reflexivity |]. split; reflexivity.
Qed.

(** ** Runs of the file helpers *)

Example run_set_path_dotted_folder :
  set_path Double.client Disk.fs "." "./data" false false false []
  = (Ok [("./data/a.json", true); ("./data/bad.json", false);
         ("./data/sub/b.json", true)],
     [SentCommand [TStr "JSON.SET"; TStr ""; TStr "."; TStr "1"];
      SentCommand [TStr "JSON.SET"; TStr ""; TStr "."; TStr "1"]]).
Proof. reflexivity. Qed.

Example run_set_path_plain_folder :
  set_path Double.client Disk.fs "." "data" false false false []
  = (Ok [("data/a.json", true); ("data/bad.json", false);
         ("data/notes.v2.json", true)],
     [SentCommand [TStr "JSON.SET"; TStr "data/a"; TStr "."; TStr "1"];
      SentCommand [TStr "JSON.SET"; TStr "data/notes"; TStr "."; TStr "1"]]).
Proof. reflexivity. Qed.

Example run_set_path_both_flags :
  set_path Double.client Disk.fs "." "data" true true false []
  = (Raise (Exception_ nx_xx_message), []).
Proof. reflexivity. Qed.

(** ** One round trip at most *)

Section RoundTrips.

Variable c : Client.

Lemma append_encoded_prefix (args : list PyVal) :
  forall pieces out,
    append_encoded c pieces args = Ok out -> exists rest, out = pieces ++ rest.
Proof.
  intros pieces out H.
  destruct (append_encoded_inv c args pieces out H) as (encs & _ & ->).
  now exists (map TStr encs).
Qed.

Lemma sends_one_dispatch (verb : string) (pieces rest : list Token) :
  sends_one (TStr verb :: pieces) (execute_command c verb (pieces ++ rest)).
Proof.
  intros tr. right. exists rest. reflexivity.
Qed.

Lemma sends_one_after {A : Type} (r : Result A) (prefix : list Token)
  (k : A -> M PyVal) :
  (forall a, r = Ok a -> sends_one prefix (k a)) ->
  sends_one prefix (bind (lift r) k).
Proof.
  intros H tr. unfold bind, lift. destruct r as [a | e].
  - exact (H a eq_refl tr).
  - left. now exists e.
Qed.

Lemma get_sends (name : string) (args : list (option string))
  (no_escape : bool) (tr : Trace) :
  exists rest,
    snd (get c name args no_escape tr)
    = tr ++ [SentCommand ([TStr "JSON.GET"; TStr name] ++ rest)].
Proof.
  unfold get. run.
  match goal with
  | |- context [send_command c tr (_ :: ?p)] =>
      assert (Hp : exists rest, p = [TStr name] ++ rest)
  end.
  { destruct args as [| p args], no_escape; simpl;
      try rewrite append_paths_map; eexists; reflexivity. }
  destruct Hp as (rest & ->). exists rest.
  destruct (send_command c tr _) as [v | []]; reflexivity.
Qed.

(** Every command method with a key either raises before anything is
    sent, or makes exactly one round trip with its own verb followed by
    the key; [mget], [mset] and [debug] do so with their verb (and
    subcommand).  No method sends a second command, and none but [set]
    opens a batch. *)
Theorem commands_make_one_round_trip (name : string) :
  (forall path args, sends_one [TStr "JSON.ARRAPPEND"; TStr name] (arrappend c name path args))
  /\ (forall path scalar start stop,
        sends_one [TStr "JSON.ARRINDEX"; TStr name] (arrindex c name path scalar start stop))
  /\ (forall path index args,
        sends_one [TStr "JSON.ARRINSERT"; TStr name] (arrinsert c name path index args))
  /\ (forall path, sends_one [TStr "JSON.ARRLEN"; TStr name] (arrlen c name path))
  /\ (forall path index, sends_one [TStr "JSON.ARRPOP"; TStr name] (arrpop c name path index))
  /\ (forall path start stop,
        sends_one [TStr "JSON.ARRTRIM"; TStr name] (arrtrim c name path start stop))
  /\ (forall path, sends_one [TStr "JSON.TYPE"; TStr name] (type c name path))
  /\ (forall path, sends_one [TStr "JSON.RESP"; TStr name] (resp c name path))
  /\ (forall path, sends_one [TStr "JSON.OBJKEYS"; TStr name] (objkeys c name path))
  /\ (forall path, sends_one [TStr "JSON.OBJLEN"; TStr name] (objlen c name path))
  /\ (forall path number,
        sends_one [TStr "JSON.NUMINCRBY"; TStr name] (numincrby c name path number))
  /\ (forall path, sends_one [TStr "JSON.CLEAR"; TStr name] (clear c name path))
  /\ (forall path, sends_one [TStr "JSON.DEL"; TStr name] (delete c name path))
  /\ (forall path, sends_one [TStr "JSON.DEL"; TStr name] (forget c name path))
  /\ (forall args no_escape, sends_one [TStr "JSON.GET"; TStr name] (get c name args no_escape))
  /\ (forall path obj decode_keys,
        sends_one [TStr "JSON.MERGE"; TStr name] (merge c name path obj decode_keys))
  /\ (forall path, sends_one [TStr "JSON.STRLEN"; TStr name] (strlen c name path))
  /\ (forall path, sends_one [TStr "JSON.TOGGLE"; TStr name] (toggle c name path))
  /\ (forall value path,
        sends_one [TStr "JSON.STRAPPEND"; TStr name] (strappend c name value path))
  /\ (forall keys path, sends_one [TStr "JSON.MGET"] (mget c keys path))
  /\ (forall triplets, sends_one [TStr "JSON.MSET"] (mset c triplets))
  /\ (forall subcommand key path,
        sends_one [TStr "JSON.DEBUG"; TStr subcommand] (debug c subcommand key path)).
Proof.
  repeat match goal with |- _ /\ _ => split end; intros.
  - unfold arrappend. apply sends_one_after. intros out H.
    destruct (append_encoded_prefix _ _ _ H) as (rest & ->).
    apply (sends_one_dispatch _ [TStr name]).
  - unfold arrindex. apply sends_one_after. intros enc _.
    destruct start as [s |]; [destruct stop as [e |] |];
      apply (sends_one_dispatch _ [TStr name]).
  - unfold arrinsert. apply sends_one_after. intros out H.
    destruct (append_encoded_prefix _ _ _ H) as (rest & ->).
    apply (sends_one_dispatch _ [TStr name]).
  - apply (sends_one_dispatch _ [TStr name]).
  - apply (sends_one_dispatch _ [TStr name]).
  - apply (sends_one_dispatch _ [TStr name]).
  - apply (sends_one_dispatch _ [TStr name]).
  - apply (sends_one_dispatch _ [TStr name]).
  - apply (sends_one_dispatch _ [TStr name]).
  - apply (sends_one_dispatch _ [TStr name]).
  - unfold numincrby. apply sends_one_after. intros enc _.
    apply (sends_one_dispatch _ [TStr name]).
  - apply (sends_one_dispatch _ [TStr name]).
  - apply (sends_one_dispatch _ [TStr name]).
  - apply (sends_one_dispatch _ [TStr name]).
  - intros tr. right.
    destruct (get_sends name args no_escape tr) as (rest & H).
    exists rest. exact H.
  - unfold merge. apply sends_one_after. intros obj' _.
    apply sends_one_after. intros enc _.
    apply (sends_one_dispatch _ [TStr name]).
  - unfold strlen. destruct (or_default None path);
      apply (sends_one_dispatch _ [TStr name]).
  - apply (sends_one_dispatch _ [TStr name]).
  - unfold strappend. apply sends_one_after. intros enc _.
    apply (sends_one_dispatch _ [TStr name]).
  - apply (sends_one_dispatch _ []).
  - unfold mset. apply sends_one_after. intros out H.
    apply (sends_one_dispatch _ [] out).
  - unfold debug.
    destruct (negb (str_in subcommand valid_subcommands)).
    + intros tr. left. eexists. reflexivity.
    + destruct (String.eqb subcommand "MEMORY").
      * destruct (or_default None key) as [k |].
        -- apply (sends_one_dispatch _ [TStr subcommand]).
        -- intros tr. left. eexists. reflexivity.
      * apply (sends_one_dispatch _ [TStr subcommand] []).
Qed.

End RoundTrips.

(** ** Encoding errors come first *)

Section FailFast.

Variable c : Client.

Lemma append_encoded_raises (before : list PyVal) (o : PyVal)
  (after : list PyVal) (e : PyExc) :
  (forall x, In x before -> is_Ok (_encode c x) = true) ->
  _encode c o = Raise e ->
  forall pieces, append_encoded c pieces (before ++ o :: after) = Raise e.
Proof.
  intros Hbefore Ho.
  induction before as [| x before IH]; intros pieces; simpl.
  - now rewrite Ho.
  - assert (Hx : is_Ok (_encode c x) = true) by (apply Hbefore; now left).
    destruct (_encode c x) as [s |]; [| discriminate].
    apply IH. intros y Hy. apply Hbefore. now right.
Qed.

Lemma extend_triplets_raises (before : list (string * string * PyVal))
  (key path : string) (value : PyVal)
  (after : list (string * string * PyVal)) (e : PyExc) :
  (forall t, In t before -> is_Ok (_encode c (snd t)) = true) ->
  _encode c value = Raise e ->
  forall pieces,
    extend_triplets c pieces (before ++ (key, path, value) :: after) = Raise e.
Proof.
  intros Hbefore Hv.
  induction before as [| [[k p] v] before IH]; intros pieces; simpl.
  - now rewrite Hv.
  - assert (Hx : is_Ok (_encode c v) = true) by (apply (Hbefore (k, p, v)); now left).
    destruct (_encode c v) as [s |]; [| discriminate].
    apply IH. intros t Ht. apply Hbefore. now right.
Qed.

(** When one of the values of an array append, an array insert or an
    [mset] cannot be encoded, the call raises the exception of the first
    such value and nothing is sent, whatever follows that value. *)
Theorem variadic_encoding_error_sends_nothing (name : string)
  (path : Passed (option string)) (ipath : string) (index : Z)
  (before : list (string * string * PyVal)) (key kpath : string) (o : PyVal)
  (after : list (string * string * PyVal)) (e : PyExc) (tr : Trace) :
  (forall t, In t before -> is_Ok (_encode c (snd t)) = true) ->
  _encode c o = Raise e ->
  let triplets := before ++ (key, kpath, o) :: after in
  arrappend c name path (map snd triplets) tr = (Raise e, tr)
  /\ arrinsert c name ipath index (map snd triplets) tr = (Raise e, tr)
  /\ mset c triplets tr = (Raise e, tr).
Proof.
  intros Hbefore Ho triplets.
  assert (Hvals : forall x, In x (map snd before) -> is_Ok (_encode c x) = true).
  { intros x Hx. apply in_map_iff in Hx. destruct Hx as (t & <- & Ht).
    now apply Hbefore. }
  assert (Hmap : map snd triplets = map snd before ++ o :: map snd after).
  { unfold triplets. now rewrite map_app. }
  repeat split.
  - unfold arrappend. run. rewrite Hmap.
    now rewrite (append_encoded_raises _ _ _ _ Hvals Ho).
  - unfold arrinsert. run. rewrite Hmap.
    now rewrite (append_encoded_raises _ _ _ _ Hvals Ho).
  - unfold mset, triplets. run.
    now rewrite (extend_triplets_raises _ _ _ _ _ _ Hbefore Ho).
Qed.

(** When the object of a [set] or a [merge] cannot be prepared (its keys
    decoded, if asked for, and then encoded), the call raises that
    exception and sends nothing.  For [set] this holds whatever the flags
    and the [ttl] are: the exception comes before the check of [nx] and
    [xx], and no batch is opened. *)
Theorem payload_error_sends_nothing (name path : string) (obj : PyVal)
  (decode_keys : bool) (e : PyExc) (tr : Trace) :
  payload c decode_keys obj = Raise e ->
  (forall nx xx ttl,
      set c name path obj nx xx ttl decode_keys tr = (Raise e, tr))
  /\ merge c name path obj decode_keys tr = (Raise e, tr).
Proof.
  unfold payload. intros H. split; [intros nx xx ttl; unfold set | unfold merge];
    run;
    destruct (if decode_keys then decode_dict_keys c obj else Ok obj)
      as [obj' |]; simpl;
    [rewrite H; reflexivity | congruence | rewrite H; reflexivity | congruence].
Qed.

End FailFast.

Lemma variadic_encoding_error_sends_nothing_witness :
  _encode Double.client (PyList []) = Raise (TypeError "Object is not JSON serializable")
  /\ arrappend Double.client "doc1" Omitted [PyInt 1; PyList []; PyInt 2] []
     = (Raise (TypeError "Object is not JSON serializable"), [])
  /\ mset Double.client [("k1", ".", PyInt 1); ("k2", ".", PyList []); ("k3", ".", PyInt 2)] []
     = (Raise (TypeError "Object is not JSON serializable"), []).
Proof.
  split; [reflexivity |].
  assert (Hb : forall t, In t [("k1", ".", PyInt 1)] ->
                         is_Ok (_encode Double.client (snd t)) = true).
  { intros t [<- | []]. reflexivity. }
  destruct (variadic_encoding_error_sends_nothing Double.client "doc1" Omitted
              "." 0 [("k1", ".", PyInt 1)] "k2" "." (PyList [])
              [("k3", ".", PyInt 2)] _ [] Hb eq_refl) as (Ha & _ & Hm).
  split; [exact Ha | exact Hm].
Defined.

Lemma payload_error_sends_nothing_witness :
  payload Double.client false (PyList []) = Raise (TypeError "Object is not JSON serializable")
  /\ set Double.client "doc1" "." (PyList []) true true (Some 60%Z) false []
     = (Raise (TypeError "Object is not JSON serializable"), []).
Proof.
  split; [reflexivity |].
  exact (proj1 (payload_error_sends_nothing Double.client "doc1" "." (PyList [])
                  false _ [] eq_refl) true true (Some 60%Z)).
Defined.

(** ** Edge cases of the arguments *)

Section Edges.

Variable c : Client.

(** A path passed as [None] is not replaced by the root path: the methods
    whose path defaults to the root send the text [None] as the path,
    which is not what they send with the path left out.  [strlen] alone
    treats [None] as no path. *)
Theorem explicit_None_path_is_sent_as_text (name : string) (tr : Trace) :
  let sent verb := tr ++ [SentCommand [TStr verb; TStr name; TStr "None"]] in
  snd (arrlen c name (Given None) tr) = sent "JSON.ARRLEN"
  /\ snd (type c name (Given None) tr) = sent "JSON.TYPE"
  /\ snd (resp c name (Given None) tr) = sent "JSON.RESP"
  /\ snd (objkeys c name (Given None) tr) = sent "JSON.OBJKEYS"
  /\ snd (objlen c name (Given None) tr) = sent "JSON.OBJLEN"
  /\ snd (clear c name (Given None) tr) = sent "JSON.CLEAR"
  /\ snd (delete c name (Given None) tr) = sent "JSON.DEL"
  /\ snd (toggle c name (Given None) tr) = sent "JSON.TOGGLE"
  /\ snd (arrappend c name (Given None) [] tr) = sent "JSON.ARRAPPEND"
  /\ snd (delete c name (Given None) tr) <> snd (delete c name Omitted tr)
  /\ strlen c name (Given None) tr = strlen c name Omitted tr.
Proof.
  intros sent. repeat split. unfold delete. run.
  intros H. apply app_inv_head in H. discriminate H.
Qed.

(** [debug]: [HELP] sends the verb and the subcommand only, whatever key
    and path are passed; [MEMORY] without a key raises a [DataError] and
    sends nothing; [MEMORY] with a key sends the key and then the path. *)
Theorem debug_subcommands (key path : Passed (option string)) (tr : Trace) :
  debug c "HELP" key path tr
  = (send_command c tr [TStr "JSON.DEBUG"; TStr "HELP"],
     tr ++ [SentCommand [TStr "JSON.DEBUG"; TStr "HELP"]])
  /\ debug c "MEMORY" Omitted path tr = (Raise (DataError ["No key specified"]), tr)
  /\ debug c "MEMORY" (Given None) path tr = (Raise (DataError ["No key specified"]), tr)
  /\ forall k,
      let command :=
        [TStr "JSON.DEBUG"; TStr "MEMORY"; TStr k;
         TStr (str (or_default (Some Path.root_path) path))] in
      debug c "MEMORY" (Given (Some k)) path tr
      = (send_command c tr command, tr ++ [SentCommand command]).
Proof.
  repeat split.
Qed.

(** Empty lists are not rejected: [mget] with no key sends the verb and
    the path, [mset] with no triplet sends the verb alone, and an array
    append or insert with no value sends the command without payload. *)
Theorem empty_lists_are_sent (name path : string) (index : Z) (tr : Trace) :
  mget c [] path tr
  = (send_command c tr [TStr "JSON.MGET"; TStr path],
     tr ++ [SentCommand [TStr "JSON.MGET"; TStr path]])
  /\ mset c [] tr
     = (send_command c tr [TStr "JSON.MSET"], tr ++ [SentCommand [TStr "JSON.MSET"]])
  /\ arrappend c name (Given (Some path)) [] tr
     = (send_command c tr [TStr "JSON.ARRAPPEND"; TStr name; TStr path],
        tr ++ [SentCommand [TStr "JSON.ARRAPPEND"; TStr name; TStr path]])
  /\ arrinsert c name path index [] tr
     = (send_command c tr [TStr "JSON.ARRINSERT"; TStr name; TStr path; TInt index],
        tr ++ [SentCommand [TStr "JSON.ARRINSERT"; TStr name; TStr path; TInt index]]).
Proof.
  repeat split.
Qed.

End Edges.

(** ** Keys of the files *)

Lemma rsplit_dot_first (s : string) :
  exists pieces, rsplit_dot s = before_dot s :: pieces.
Proof.
  induction s as [| ch rest (pieces & IH)]; simpl.
  - now exists [].
  - destruct (Ascii.eqb ch "."); [eexists; reflexivity |].
    rewrite IH. now exists pieces.
Qed.

Lemma item0_rsplit_dot (s : string) : item0 (rsplit_dot s) = Ok (before_dot s).
Proof.
  destruct (rsplit_dot_first s) as (pieces & ->). reflexivity.
Qed.

(** The key [set_path] derives from a file path, [file_path.rsplit(".")[0]],
    always exists (no [IndexError]) and is the path cut at its first dot:
    it holds no dot, the path is the key followed by nothing or by a dot
    and more, so a path that begins with a dot has the empty key and a
    path with no dot is its own key. *)
Theorem file_key_is_cut_at_first_dot (file_path : string) :
  exists key rest : string,
    item0 (rsplit_dot file_path) = Ok key
    /\ file_path = (key ++ rest)%string
    /\ (rest = "" \/ exists more, rest = String "." more)
    /\ ~ In "."%char (list_ascii_of_string key)
    /\ (forall more, file_path = String "." more -> key = "")
    /\ (~ In "."%char (list_ascii_of_string file_path) -> key = file_path).
Proof.
  exists (before_dot file_path).
  assert (H : exists rest : string,
             file_path = (before_dot file_path ++ rest)%string
             /\ (rest = "" \/ exists more, rest = String "." more)
             /\ ~ In "."%char (list_ascii_of_string (before_dot file_path))
             /\ (~ In "."%char (list_ascii_of_string file_path) ->
                 before_dot file_path = file_path)).
  { induction file_path as [| ch s (rest & Hs & Hrest & Hno & Hall)]; simpl.
    - exists "". repeat split; auto.
    - destruct (Ascii.eqb_spec ch ".") as [-> | Hne].
      + exists (String "." s). repeat split; simpl; eauto.
        intros Hnot. elim Hnot. now left.
      + exists rest. simpl. repeat split.
        * now rewrite <- Hs.
        * exact Hrest.
        * intros [He | Hin]; [now elim Hne | now elim Hno].
        * intros Hnot. rewrite Hall; [reflexivity |].
          intros Hin. apply Hnot. now right. }
  destruct H as (rest & Hs & Hrest & Hno & Hall).
  exists rest. repeat split; auto.
  - apply item0_rsplit_dot.
  - intros more ->. reflexivity.
Qed.

Lemma file_key_is_cut_at_first_dot_witness :
  exists key,
    item0 (rsplit_dot "./data/a.json") = Ok key /\ key = "".
Proof.
  destruct (file_key_is_cut_at_first_dot "./data/a.json")
    as (key & rest & Hkey & _ & _ & _ & Hdot & _).
  exists key. split; [exact Hkey | exact (Hdot _ eq_refl)].
Defined.

(** ** Loading a folder *)

Section Folders.

Variable c : Client.
Variable fs : FileSystem.

Lemma set_immediate (name path : string) (obj : PyVal) (nx xx : bool)
  (decode_keys : bool) (enc : string) (tr : Trace) :
  payload c decode_keys obj = Ok enc ->
  nx && xx = false ->
  set c name path obj nx xx None decode_keys tr
  = (send_command c tr (set_command name path enc nx xx),
     tr ++ [SentCommand (set_command name path enc nx xx)]).
Proof.
  intros Hp Hflags. unfold payload, set in *. run.
  destruct (if decode_keys then decode_dict_keys c obj else Ok obj)
    as [obj' |]; simpl in *; [| discriminate].
  rewrite Hp, Hflags. unfold set_command, flag_tokens.
  destruct nx, xx; simpl in *; try discriminate; reflexivity.
Qed.

Lemma set_both_flags (name path : string) (obj : PyVal) (ttl : option Z)
  (decode_keys : bool) (enc : string) (tr : Trace) :
  payload c decode_keys obj = Ok enc ->
  set c name path obj true true ttl decode_keys tr
  = (Raise (Exception_ nx_xx_message), tr).
Proof.
  intros Hp. unfold payload, set in *. run.
  destruct (if decode_keys then decode_dict_keys c obj else Ok obj)
    as [obj' |]; simpl in *; [| discriminate].
  now rewrite Hp.
Qed.

Lemma set_None_trace (name path : string) (obj : PyVal) (nx xx : bool)
  (decode_keys : bool) (tr : Trace) :
  snd (set c name path obj nx xx None decode_keys tr) = tr
  \/ exists rest,
      snd (set c name path obj nx xx None decode_keys tr)
      = tr ++ [SentCommand (TStr "JSON.SET" :: rest)].
Proof.
  unfold set. run.
  destruct (if decode_keys then decode_dict_keys c obj else Ok obj)
    as [obj' |]; simpl; [| now left].
  destruct (_encode c obj') as [enc |]; simpl; [| now left].
  destruct nx, xx; simpl; try (now left); right; eexists; reflexivity.
Qed.

Lemma set_file_trace (name path file_name : string) (nx xx : bool)
  (decode_keys : bool) (tr : Trace) :
  snd (set_file c fs name path file_name nx xx decode_keys tr) = tr
  \/ exists rest,
      snd (set_file c fs name path file_name nx xx decode_keys tr)
      = tr ++ [SentCommand (TStr "JSON.SET" :: rest)].
Proof.
  unfold set_file, bind, lift.
  destruct (read fs file_name) as [text |]; [| now left].
  destruct (loads fs text) as [content |]; [| now left].
  apply set_None_trace.
Qed.

Lemma turn_run (json_path file_path : string) (nx xx decode_keys : bool)
  (acc : list (string * bool)) (tr : Trace) :
  turn c fs json_path file_path nx xx decode_keys acc tr
  = match set_file c fs (before_dot file_path) json_path file_path
                   nx xx decode_keys tr with
    | (Ok _, tr') => (Ok (dict_set acc file_path true), tr')
    | (Raise e, tr') =>
        if is_JSONDecodeError e then (Ok (dict_set acc file_path false), tr')
        else (Raise e, tr')
    end.
Proof.
  unfold turn, try_except_JSONDecodeError, bind, lift, ret.
  rewrite item0_rsplit_dot.
  destruct (set_file c fs _ _ _ _ _ _ tr) as [[v | e] tr']; reflexivity.
Qed.

End Folders.

Section FolderLoops.

Variable c : Client.
Variable fs : FileSystem.
Variables (json_path : string) (nx xx decode_keys : bool).

Lemma files_unfold (root file : string) (files : list string)
  (acc : list (string * bool)) :
  set_path_files c fs json_path root (file :: files) nx xx decode_keys acc
  = bind (turn c fs json_path (join fs root file) nx xx decode_keys acc)
         (fun acc' =>
            set_path_files c fs json_path root files nx xx decode_keys acc').
Proof. reflexivity. Qed.

Lemma turn_trace (file_path : string) (acc : list (string * bool)) (tr : Trace) :
  snd (turn c fs json_path file_path nx xx decode_keys acc tr) = tr
  \/ exists rest,
      snd (turn c fs json_path file_path nx xx decode_keys acc tr)
      = tr ++ [SentCommand (TStr "JSON.SET" :: rest)].
Proof.
  rewrite turn_run.
  destruct (set_file_trace c fs (before_dot file_path) json_path file_path
              nx xx decode_keys tr) as [H | (rest & H)];
    destruct (set_file c fs _ _ _ _ _ _ tr) as [[v | e] tr']; simpl in *;
    try destruct (is_JSONDecodeError e); simpl; subst; eauto.
Qed.

Lemma files_trace (root : string) (files : list string) :
  forall acc tr,
  exists evs,
    snd (set_path_files c fs json_path root files nx xx decode_keys acc tr)
    = tr ++ evs
    /\ length evs <= length files
    /\ Forall is_json_set evs.
Proof.
  induction files as [| file files IH]; intros acc tr.
  - exists []. simpl. rewrite app_nil_r. repeat split; auto.
  - rewrite files_unfold. unfold bind.
    pose proof (turn_trace (join fs root file) acc tr) as Ht.
    destruct (turn c fs json_path (join fs root file) nx xx decode_keys acc tr)
      as [[acc' | e] tr'] eqn:Hturn; simpl in Ht.
    + destruct (IH acc' tr') as (evs & Hsnd & Hlen & Hall).
      destruct Ht as [-> | (rest & ->)].
      * exists evs. rewrite Hsnd. repeat split; [simpl; lia | exact Hall].
      * exists (SentCommand (TStr "JSON.SET" :: rest) :: evs).
        rewrite Hsnd, <- app_assoc. simpl. repeat split; [simpl in *; lia |].
        constructor; [now exists rest | exact Hall].
    + destruct Ht as [-> | (rest & ->)]; simpl.
      * exists []. rewrite app_nil_r. repeat split; [simpl; lia | constructor].
      * exists [SentCommand (TStr "JSON.SET" :: rest)].
        repeat split; [simpl; lia |].
        constructor; [now exists rest | constructor].
Qed.

Lemma walk_trace (entries : list (string * list string * list string)) :
  forall acc tr,
  exists evs,
    snd (set_path_walk c fs json_path entries nx xx decode_keys acc tr)
    = tr ++ evs
    /\ length evs
       <= length (flat_map (fun entry => map (join fs (fst (fst entry))) (snd entry))
                           entries)
    /\ Forall is_json_set evs.
Proof.
  induction entries as [| [[root dirs] files] entries IH]; intros acc tr.
  - exists []. simpl. rewrite app_nil_r. repeat split; auto.
  - simpl. unfold bind.
    destruct (files_trace root files acc tr) as (evs1 & H1 & Hlen1 & Hall1).
    destruct (set_path_files c fs json_path root files nx xx decode_keys acc tr)
      as [[acc' | e] tr'] eqn:Hfiles; simpl in H1; subst tr'.
    + destruct (IH acc' (tr ++ evs1)) as (evs2 & H2 & Hlen2 & Hall2).
      exists (evs1 ++ evs2). rewrite H2, app_assoc.
      repeat split; [| now apply Forall_app].
      rewrite !length_app, length_map. lia.
    + exists evs1. simpl. repeat split; [| exact Hall1].
      rewrite length_app, length_map. lia.
Qed.

(** Whatever the files hold and whatever fails, [set_path] sends nothing
    but single [JSON.SET] commands, never a batch, and at most one for
    each file of the walk; what was sent before stays in front. *)
Theorem set_path_sends_one_set_per_file_at_most (root_folder : string)
  (tr : Trace) :
  exists evs,
    snd (set_path c fs json_path root_folder nx xx decode_keys tr) = tr ++ evs
    /\ length evs <= length (walk_paths fs root_folder)
    /\ Forall is_json_set evs.
Proof.
  unfold set_path, walk_paths. apply walk_trace.
Qed.

End FolderLoops.

Section FolderResults.

Variable c : Client.
Variable fs : FileSystem.
Variables (json_path : string) (nx xx decode_keys : bool).

Lemma files_as_turns (root : string) (files : list string) :
  forall acc tr,
    set_path_files c fs json_path root files nx xx decode_keys acc tr
    = turns c fs json_path (map (join fs root) files) nx xx decode_keys acc tr.
Proof.
  induction files as [| file files IH]; intros acc tr; [reflexivity |].
  rewrite files_unfold. simpl. unfold bind.
  destruct (turn c fs json_path (join fs root file) nx xx decode_keys acc tr)
    as [[acc' | e] tr']; [apply IH | reflexivity].
Qed.

Lemma turns_app (paths more : list string) :
  forall acc tr,
    turns c fs json_path (paths ++ more) nx xx decode_keys acc tr
    = bind (turns c fs json_path paths nx xx decode_keys acc)
           (fun acc' => turns c fs json_path more nx xx decode_keys acc') tr.
Proof.
  induction paths as [| file_path paths IH]; intros acc tr; [reflexivity |].
  simpl. unfold bind in *.
  destruct (turn c fs json_path file_path nx xx decode_keys acc tr)
    as [[acc' | e] tr']; [apply IH | reflexivity].
Qed.

Lemma walk_as_turns (entries : list (string * list string * list string)) :
  forall acc tr,
    set_path_walk c fs json_path entries nx xx decode_keys acc tr
    = turns c fs json_path
        (flat_map (fun entry => map (join fs (fst (fst entry))) (snd entry)) entries)
        nx xx decode_keys acc tr.
Proof.
  induction entries as [| [[root dirs] files] entries IH]; intros acc tr;
    [reflexivity |].
  simpl. rewrite turns_app. unfold bind. rewrite files_as_turns.
  destruct (turns c fs json_path (map (join fs root) files) nx xx decode_keys acc tr)
    as [[acc' | e] tr']; [apply IH | reflexivity].
Qed.

Lemma turn_malformed (file_path : string) (acc : list (string * bool))
  (tr : Trace) :
  malformed fs file_path ->
  turn c fs json_path file_path nx xx decode_keys acc tr
  = (Ok (dict_set acc file_path false), tr).
Proof.
  intros (text & msg & Hread & Hloads). rewrite turn_run.
  unfold set_file, bind, lift. now rewrite Hread, Hloads.
Qed.

Lemma turn_parses (file_path enc : string) (acc : list (string * bool))
  (tr : Trace) :
  parses c fs decode_keys file_path enc ->
  nx && xx = false ->
  is_Ok (send_command c tr (set_command (before_dot file_path) json_path enc nx xx))
  = true ->
  turn c fs json_path file_path nx xx decode_keys acc tr
  = (Ok (dict_set acc file_path true),
     tr ++ [SentCommand (set_command (before_dot file_path) json_path enc nx xx)]).
Proof.
  intros (text & content & Hread & Hloads & Hp) Hflags Hok. rewrite turn_run.
  unfold set_file, bind, lift. rewrite Hread, Hloads.
  rewrite (set_immediate c _ _ _ _ _ _ enc tr Hp Hflags).
  now destruct (send_command c tr _).
Qed.

Variable good : string -> bool.
Variable enc_of : string -> string.

Lemma dict_get_set {V : Type} (d : list (string * V)) (k k' : string) (v : V) :
  dict_get (dict_set d k v) k' = if String.eqb k' k then Some v else dict_get d k'.
Proof.
  induction d as [| [k0 v0] d IH]; simpl.
  - now rewrite (String.eqb_sym k k').
  - destruct (String.eqb_spec k0 k) as [-> | Hne]; simpl.
    + rewrite (String.eqb_sym k k'). now destruct (String.eqb k' k).
    + rewrite IH. destruct (String.eqb_spec k0 k') as [-> | Hne'];
        [| reflexivity].
      destruct (String.eqb_spec k' k); [congruence | reflexivity].
Qed.

Lemma marked_lookup (paths : list string) :
  forall acc file_path,
    dict_get (fold_left (fun d p => dict_set d p (good p)) paths acc) file_path
    = if existsb (String.eqb file_path) paths then Some (good file_path)
      else dict_get acc file_path.
Proof.
  induction paths as [| p paths IH]; intros acc file_path; simpl; [reflexivity |].
  rewrite IH, dict_get_set.
  destruct (existsb (String.eqb file_path) paths); [now rewrite orb_true_r |].
  rewrite orb_false_r.
  destruct (String.eqb_spec file_path p) as [-> | _]; reflexivity.
Qed.

Lemma turns_result (paths : list string) :
  (forall file_path, In file_path paths ->
     (good file_path = true /\ parses c fs decode_keys file_path (enc_of file_path))
     \/ (good file_path = false /\ malformed fs file_path)) ->
  (nx && xx = false \/ forall file_path, In file_path paths -> good file_path = false) ->
  (forall tr file_path, In file_path paths ->
     is_Ok (send_command c tr (set_command (before_dot file_path) json_path
                                           (enc_of file_path) nx xx)) = true) ->
  forall acc tr,
    turns c fs json_path paths nx xx decode_keys acc tr
    = (Ok (fold_left (fun d file_path => dict_set d file_path (good file_path))
                     paths acc),
       tr ++ map (fun file_path =>
                    SentCommand (set_command (before_dot file_path) json_path
                                             (enc_of file_path) nx xx))
                 (filter good paths)).
Proof.
  intros Hfiles Hflags Hstore.
  induction paths as [| file_path paths IH]; intros acc tr; simpl.
  - now rewrite app_nil_r.
  - assert (IH' := IH (fun p Hp => Hfiles p (or_intror Hp))
                      (match Hflags with
                       | or_introl H => or_introl H
                       | or_intror H => or_intror (fun p Hp => H p (or_intror Hp))
                       end)
                      (fun t p Hp => Hstore t p (or_intror Hp))).
    unfold bind.
    destruct (Hfiles file_path (or_introl eq_refl)) as [(Hg & Hp) | (Hg & Hm)];
      rewrite Hg.
    + destruct Hflags as [Hflags | Hnone];
        [| rewrite (Hnone file_path (or_introl eq_refl)) in Hg; discriminate].
      rewrite (turn_parses _ _ acc tr Hp Hflags (Hstore _ _ (or_introl eq_refl))).
      rewrite IH'. simpl. now rewrite <- app_assoc.
    + rewrite (turn_malformed _ acc tr Hm). apply IH'.
Qed.

(** When every file of the walk either parses (and its content encodes)
    or is not JSON, the store accepts the commands, and [nx] and [xx] are
    not both set, [set_path] returns the dict that maps each file path to
    whether it parsed, and has sent, in the order of the walk, one single
    [JSON.SET] for each file that parsed and none for the others; the key
    is the file path cut at its first dot, the path is [json_path], and
    there is no expiry.  With both flags set the same holds when no file
    parses: the flags are never looked at. *)
Theorem set_path_loads_the_files_that_parse (root_folder : string) (tr : Trace) :
  (forall file_path, In file_path (walk_paths fs root_folder) ->
     (good file_path = true /\ parses c fs decode_keys file_path (enc_of file_path))
     \/ (good file_path = false /\ malformed fs file_path)) ->
  (nx && xx = false
   \/ forall file_path, In file_path (walk_paths fs root_folder) ->
                        good file_path = false) ->
  (forall tr file_path, In file_path (walk_paths fs root_folder) ->
     is_Ok (send_command c tr (set_command (before_dot file_path) json_path
                                           (enc_of file_path) nx xx)) = true) ->
  set_path c fs json_path root_folder nx xx decode_keys tr
  = (Ok (marked good (walk_paths fs root_folder)),
     tr ++ map (fun file_path =>
                  SentCommand (set_command (before_dot file_path) json_path
                                           (enc_of file_path) nx xx))
               (filter good (walk_paths fs root_folder)))
  /\ forall file_path,
      dict_get (marked good (walk_paths fs root_folder)) file_path
      = if existsb (String.eqb file_path) (walk_paths fs root_folder)
        then Some (good file_path) else None.
Proof.
  intros Hfiles Hflags Hstore. split.
  - unfold set_path. rewrite walk_as_turns.
    exact (turns_result _ Hfiles Hflags Hstore [] tr).
  - intros file_path. unfold marked. now rewrite marked_lookup.
Qed.

(** [set_path] stops at the first file whose [set_file] raises anything
    but a [JSONDecodeError] (an unreadable file, an object that cannot be
    encoded, [nx] together with [xx], an error of the store): that
    exception is raised, the files after it are not touched, and the dict
    of the files done so far is not returned, although the commands of
    the files before it have been sent. *)
Theorem set_path_stops_at_first_error (root_folder : string)
  (before : list string) (file_path : string) (rest : list string)
  (e : PyExc) (tr tr' : Trace) :
  walk_paths fs root_folder = before ++ file_path :: rest ->
  (forall p, In p before ->
     (good p = true /\ parses c fs decode_keys p (enc_of p))
     \/ (good p = false /\ malformed fs p)) ->
  (nx && xx = false \/ forall p, In p before -> good p = false) ->
  (forall tr p, In p before ->
     is_Ok (send_command c tr (set_command (before_dot p) json_path
                                           (enc_of p) nx xx)) = true) ->
  let sent :=
    tr ++ map (fun p => SentCommand (set_command (before_dot p) json_path
                                                 (enc_of p) nx xx))
              (filter good before) in
  set_file c fs (before_dot file_path) json_path file_path nx xx decode_keys sent
  = (Raise e, tr') ->
  is_JSONDecodeError e = false ->
  set_path c fs json_path root_folder nx xx decode_keys tr = (Raise e, tr').
Proof.
  intros Hpaths Hfiles Hflags Hstore sent Hraise He.
  unfold set_path, walk_paths in *. rewrite walk_as_turns, Hpaths, turns_app.
  unfold bind. rewrite (turns_result before Hfiles Hflags Hstore [] tr).
  simpl. unfold bind. rewrite turn_run. fold sent. now rewrite Hraise, He.
Qed.

End FolderResults.

Lemma set_path_loads_the_files_that_parse_witness :
  let good := fun p => negb (String.eqb (substring (String.length p - 8) 8 p) "bad.json") in
  let enc_of := fun _ : string => "1" in
  (forall file_path, In file_path (walk_paths Disk.fs "data") ->
     (good file_path = true
      /\ parses Double.client Disk.fs false file_path (enc_of file_path))
     \/ (good file_path = false /\ malformed Disk.fs file_path))
  /\ (forall tr file_path, In file_path (walk_paths Disk.fs "data") ->
        is_Ok (send_command Double.client tr
                 (set_command (before_dot file_path) "." (enc_of file_path)
                              false false)) = true)
  /\ set_path Double.client Disk.fs "." "data" false false false
              [SentCommand [TStr "JSON.DEL"; TStr "data/a"; TStr "."]]
     = (Ok [("data/a.json", true); ("data/bad.json", false);
            ("data/notes.v2.json", true)],
        [SentCommand [TStr "JSON.DEL"; TStr "data/a"; TStr "."];
         SentCommand [TStr "JSON.SET"; TStr "data/a"; TStr "."; TStr "1"];
         SentCommand [TStr "JSON.SET"; TStr "data/notes"; TStr "."; TStr "1"]]).
Proof.
  intros good enc_of.
  assert (Hfiles : forall file_path, In file_path (walk_paths Disk.fs "data") ->
     (good file_path = true
      /\ parses Double.client Disk.fs false file_path (enc_of file_path))
     \/ (good file_path = false /\ malformed Disk.fs file_path)).
  { intros file_path [<- | [<- | [<- | []]]].
    - left. split; [reflexivity |]. exists "1", (PyInt 1). repeat split.
    - right. split; [reflexivity |]. eexists "{", _. split; reflexivity.
    - left. split; [reflexivity |]. exists "1", (PyInt 1). repeat split. }
  assert (Hstore : forall tr file_path, In file_path (walk_paths Disk.fs "data") ->
        is_Ok (send_command Double.client tr
                 (set_command (before_dot file_path) "." (enc_of file_path)
                              false false)) = true).
  { intros tr file_path [<- | [<- | [<- | []]]]; reflexivity. }
  split; [exact Hfiles |]. split; [exact Hstore |].
  exact (proj1 (set_path_loads_the_files_that_parse Double.client Disk.fs "."
                  false false false good enc_of "data" _ Hfiles
                  (or_introl eq_refl) Hstore)).
Defined.

Lemma set_path_stops_at_first_error_witness :
  walk_paths Disk.fs "mixed" = ["mixed/bad.json"] ++ "mixed/sub/a.json" :: ["mixed/sub/b.json"]
  /\ malformed Disk.fs "mixed/bad.json"
  /\ set_file Double.client Disk.fs "mixed/sub/a" "." "mixed/sub/a.json" true true false []
     = (Raise (Exception_ nx_xx_message), [])
  /\ set_path Double.client Disk.fs "." "mixed" true true false []
     = (Raise (Exception_ nx_xx_message), []).
Proof.
  assert (Hbad : malformed Disk.fs "mixed/bad.json").
  { eexists "{", _. split; reflexivity. }
  split; [reflexivity |]. split; [exact Hbad |]. split; [reflexivity |].
  refine (set_path_stops_at_first_error Double.client Disk.fs "." true true false
            (fun _ => false) (fun _ => "1") "mixed"
            ["mixed/bad.json"] "mixed/sub/a.json" ["mixed/sub/b.json"]
            _ [] [] eq_refl _ (or_intror (fun _ _ => eq_refl)) _ eq_refl eq_refl).
  - intros p [<- | []]. right. split; [reflexivity | exact Hbad].
  - intros tr p [<- | []]. reflexivity.
Defined.

(** ** The cached modules *)

Section CachedModules.

Import Modules.

Ltac cached :=
  repeat match goal with
         | H : forall x, Some ?a = Some x -> _ |- _ =>
             pose proof (H a eq_refl); clear H
         | H : forall x y, Some ?a = Some x -> Some ?b = Some y -> _ |- _ =>
             pose proof (H a b eq_refl eq_refl); clear H
         | H : forall x, None = Some x -> _ |- _ => clear H
         | H : forall x y, None = Some x -> _ -> _ |- _ => clear H
         | H : forall x y, _ -> None = Some y -> _ |- _ => clear H
         end;
  repeat split; intros;
  repeat match goal with
         | H : Some _ = Some _ |- _ => inversion H; subst; clear H
         end;
  try discriminate; try reflexivity; try lia.

Lemma json_keeps (self : t) :
  well_formed self ->
  well_formed (snd (json self))
  /\ __json_module__ (snd (json self)) = Some (fst (json self))
  /\ __ft_module__ (snd (json self)) = __ft_module__ self
  /\ (forall j, __json_module__ self = Some j -> fst (json self) = j).
Proof.
  unfold json, well_formed. intros (Hc & Hj & Hf & Hd).
  destruct self as [[j |] [f |] n]; cbn in *; cached.
Qed.

Lemma ft_keeps (self : t) :
  well_formed self ->
  well_formed (snd (ft self))
  /\ __ft_module__ (snd (ft self)) = Some (fst (ft self))
  /\ __json_module__ (snd (ft self)) = __json_module__ self
  /\ (forall f, __ft_module__ self = Some f -> fst (ft self) = f).
Proof.
  unfold ft, well_formed. intros (Hc & Hj & Hf & Hd).
  destruct self as [[j |] [f |] n]; cbn in *; cached.
Qed.

Lemma reads_keep (rs : list Read) :
  forall self,
    well_formed self ->
    well_formed (snd (reads rs self))
    /\ (forall j, __json_module__ self = Some j ->
                  __json_module__ (snd (reads rs self)) = Some j)
    /\ (forall f, __ft_module__ self = Some f ->
                  __ft_module__ (snd (reads rs self)) = Some f)
    /\ (forall m, In (ReadJson, m) (fst (reads rs self)) ->
                  __json_module__ (snd (reads rs self)) = Some m)
    /\ (forall m, In (ReadFt, m) (fst (reads rs self)) ->
                  __ft_module__ (snd (reads rs self)) = Some m).
Proof.
  induction rs as [| r rs IH]; intros self Hwf; simpl.
  - split; [exact Hwf |]. repeat split; auto; intros m H; destruct H.
  - destruct r.
    + destruct (json_keeps self Hwf) as (Hwf' & Hset & Hother & Hsame).
      destruct (json self) as [module self'] eqn:Hjson; simpl in *.
      destruct (IH self' Hwf') as (Hwf'' & Hj & Hf & Hrj & Hrf).
      destruct (reads rs self') as [returned final]; simpl in *.
      split; [exact Hwf'' |]. repeat split.
      * intros j H. apply Hj. rewrite Hset. f_equal. now apply Hsame.
      * intros f H. apply Hf. now rewrite Hother.
      * intros m [H | H]; [inversion H; subst; now apply Hj | now apply Hrj].
      * intros m [H | H]; [discriminate | now apply Hrf].
    + destruct (ft_keeps self Hwf) as (Hwf' & Hset & Hother & Hsame).
      destruct (ft self) as [module self'] eqn:Hft; simpl in *.
      destruct (IH self' Hwf') as (Hwf'' & Hj & Hf & Hrj & Hrf).
      destruct (reads rs self') as [returned final]; simpl in *.
      split; [exact Hwf'' |]. repeat split.
      * intros j H. apply Hj. now rewrite Hother.
      * intros f H. apply Hf. rewrite Hset. f_equal. now apply Hsame.
      * intros m [H | H]; [discriminate | now apply Hrj].
      * intros m [H | H]; [inversion H; subst; now apply Hf | now apply Hrf].
Qed.

(** However the properties [json] and [ft] of a [Redis] object are read,
    and however often, every read of [json] returns the same object,
    every read of [ft] returns the same object, the two are different
    objects, and no more than two module objects are ever constructed. *)
Theorem modules_are_built_once (rs : list Read) :
  constructed (snd (reads rs fresh)) <= 2
  /\ (forall m1 m2, In (ReadJson, m1) (fst (reads rs fresh)) ->
                    In (ReadJson, m2) (fst (reads rs fresh)) -> m1 = m2)
  /\ (forall m1 m2, In (ReadFt, m1) (fst (reads rs fresh)) ->
                    In (ReadFt, m2) (fst (reads rs fresh)) -> m1 = m2)
  /\ (forall mj mf, In (ReadJson, mj) (fst (reads rs fresh)) ->
                    In (ReadFt, mf) (fst (reads rs fresh)) -> mj <> mf).
Proof.
  assert (Hfresh : well_formed fresh).
  { unfold well_formed, fresh. simpl. repeat split; intros; discriminate. }
  destruct (reads_keep rs fresh Hfresh) as ((Hc & _ & _ & Hd) & _ & _ & Hrj & Hrf).
  repeat split.
  - rewrite Hc. destruct (__json_module__ _), (__ft_module__ _); simpl; lia.
  - intros m1 m2 H1 H2. apply Hrj in H1, H2. congruence.
  - intros m1 m2 H1 H2. apply Hrf in H1, H2. congruence.
  - intros mj mf H1 H2. apply Hrj in H1. apply Hrf in H2. exact (Hd _ _ H1 H2).
Qed.

End CachedModules.

Lemma modules_are_built_once_witness :
  fst (Modules.reads [Modules.ReadJson; Modules.ReadFt; Modules.ReadJson] Modules.fresh)
  = [(Modules.ReadJson, 0); (Modules.ReadFt, 1); (Modules.ReadJson, 0)]
  /\ 0 <> 1.
Proof.
  split; [reflexivity |].
  destruct (modules_are_built_once
              [Modules.ReadJson; Modules.ReadFt; Modules.ReadJson])
    as (_ & _ & _ & Hdiff).
  apply (Hdiff 0 1); simpl; auto.
Defined.
